(** * Book assistant: chapter finder and AI gateway of [book.py]

    A shallow embedding of the functions of [book.py]:
    [find_chapters], [call_gemini_api], [summarize_book] and
    [generate_book_quiz].

    Text is a [string]; each [ascii] stands for the code point of the same
    number (0..255), and the character classes below are Python's classes
    on that range. *)

From Stdlib Require Import Bool List ZArith NArith String Ascii Lia.
From Stdlib Require Import DecimalString SpecFloat.
Import ListNotations.
Local Open Scope string_scope.
Set Warnings "-abstract-large-number".

(** ** Python strings *)

Module PyStr.

Definition code (c : ascii) : N := N_of_ascii c.

Definition between (lo hi n : N) : bool := (N.leb lo n && N.leb n hi)%bool.

(** [str.isspace] on one character, the class that [str.strip()] and the
    regular-expression class [\s] use: TAB..CR, FS..US, SPACE, NEL, NBSP. *)
Definition isspace (c : ascii) : bool :=
  let n := code c in
  (between 9 13 n || between 28 31 n || N.eqb n 32 || N.eqb n 133
   || N.eqb n 160)%bool.

(** The class [\d]: decimal digits. *)
Definition isdecimal (c : ascii) : bool := between 48 57 (code c).

(** [str.isalnum] on one character. *)
Definition isalnum (c : ascii) : bool :=
  let n := code c in
  (between 48 57 n || between 65 90 n || between 97 122 n
   || N.eqb n 170 || N.eqb n 178 || N.eqb n 179 || N.eqb n 181
   || N.eqb n 185 || N.eqb n 186 || between 188 190 n
   || between 192 214 n || between 216 246 n || between 248 255 n)%bool.

(** The class [\w]: alphanumeric or underscore. *)
Definition isword (c : ascii) : bool := (isalnum c || N.eqb (code c) 95)%bool.

(** [str.lower] on one character. *)
Definition lower (c : ascii) : ascii :=
  let n := code c in
  if (between 65 90 n || between 192 214 n || between 216 222 n)%bool
  then ascii_of_N (n + 32) else c.

Definition newline : ascii := ascii_of_N 10.

(** [s.lstrip()] *)
Fixpoint lstrip (s : string) : string :=
  match s with
  | EmptyString => EmptyString
  | String c s' => if isspace c then lstrip s' else s
  end.

(** [s.rstrip()] *)
Fixpoint rstrip (s : string) : string :=
  match s with
  | EmptyString => EmptyString
  | String c s' =>
      match rstrip s' with
      | EmptyString => if isspace c then EmptyString else String c EmptyString
      | r => String c r
      end
  end.

(** [s.strip()] *)
Definition strip (s : string) : string := rstrip (lstrip s).

(** [s.split('\n')]: the pieces between the line feeds; never empty. *)
Fixpoint split_lines (s : string) : list string :=
  match s with
  | EmptyString => [EmptyString]
  | String c s' =>
      if Ascii.eqb c newline then EmptyString :: split_lines s'
      else match split_lines s' with
           | l :: ls => String c l :: ls
           | [] => [String c EmptyString]
           end
  end.

(** Truth value of a string: [if s:] *)
Definition truthy (s : string) : bool :=
  match s with EmptyString => false | _ => true end.

(** [s[:n]] for a bound [n >= 0] *)
Fixpoint slice_to (n : nat) (s : string) : string :=
  match n, s with
  | O, _ => EmptyString
  | _, EmptyString => EmptyString
  | S n', String c s' => String c (slice_to n' s')
  end.

(** [t] starts with [p]. *)
Fixpoint startswith (p t : string) : bool :=
  match p, t with
  | EmptyString, _ => true
  | String a p', String b t' => (Ascii.eqb a b && startswith p' t')%bool
  | String _ _, EmptyString => false
  end.

(** Is [s] free of line feeds? *)
Fixpoint one_line (s : string) : bool :=
  match s with
  | EmptyString => true
  | String c s' => negb (Ascii.eqb c newline) && one_line s'
  end.

End PyStr.

(** ** Regular expressions of the [re] module *)

Module Re.

Import PyStr.

(** An item of a bracket set [[...]]. *)
Inductive set_item : Type :=
  | SChar (c : ascii)
  | SRange (lo hi : ascii).

Inductive regex : Type :=
  | Fail                          (* matches nothing *)
  | Empty                         (* matches the empty string *)
  | Lit (c : ascii)               (* a literal character *)
  | Set_ (items : list set_item)  (* [...] *)
  | Space                         (* \s *)
  | Digit                         (* \d *)
  | Word                          (* \w *)
  | Dot                           (* .  *)
  | Seq (r1 r2 : regex)
  | Alt (r1 r2 : regex)           (* r1|r2 *)
  | Star (r : regex)              (* r* *)
  | Plus (r : regex)              (* r+ *)
  | Opt (r : regex).              (* r? *)

(** A pattern [^body$] compiled with flags. *)
Record pattern : Type := Pattern {
  body : regex;
  ignorecase : bool;
  multiline : bool
}.

(** A literal word, character by character. *)
Fixpoint word (s : string) : regex :=
  match s with
  | EmptyString => Empty
  | String c EmptyString => Lit c
  | String c s' => Seq (Lit c) (word s')
  end.

Fixpoint seqs (rs : list regex) : regex :=
  match rs with
  | [] => Empty
  | [r] => r
  | r :: rs' => Seq r (seqs rs')
  end.

Fixpoint alts (rs : list regex) : regex :=
  match rs with
  | [] => Fail
  | [r] => r
  | r :: rs' => Alt r (alts rs')
  end.

(** Characters from [lo] to [hi], both included. *)
Definition chars_between (lo hi : ascii) : list ascii :=
  map (fun k => ascii_of_N (code lo + N.of_nat k))
      (seq 0 (N.to_nat (code hi + 1 - code lo))).

(** Does character [x] match the pattern character [c]?  With IGNORECASE
    the two are compared after lowering. *)
Definition char_match (ic : bool) (c x : ascii) : bool :=
  if ic then Ascii.eqb (lower c) (lower x) else Ascii.eqb c x.

Definition item_match (ic : bool) (x : ascii) (it : set_item) : bool :=
  match it with
  | SChar c => char_match ic c x
  | SRange lo hi => existsb (fun c => char_match ic c x) (chars_between lo hi)
  end.

(** Does the one-character expression [r] match the character [x]? *)
Definition class_match (ic : bool) (r : regex) (x : ascii) : bool :=
  match r with
  | Lit c => char_match ic c x
  | Set_ items => existsb (item_match ic x) items
  | Space => isspace x
  | Digit => isdecimal x
  | Word => isword x
  | Dot => negb (Ascii.eqb x newline)
  | _ => false
  end.

(** The strings that an expression matches from end to end. *)
Inductive lang (ic : bool) : regex -> string -> Prop :=
  | lang_empty : lang ic Empty EmptyString
  | lang_char r x :
      class_match ic r x = true -> lang ic r (String x EmptyString)
  | lang_seq r1 r2 s1 s2 :
      lang ic r1 s1 -> lang ic r2 s2 -> lang ic (Seq r1 r2) (s1 ++ s2)
  | lang_alt_l r1 r2 s : lang ic r1 s -> lang ic (Alt r1 r2) s
  | lang_alt_r r1 r2 s : lang ic r2 s -> lang ic (Alt r1 r2) s
  | lang_star_nil r : lang ic (Star r) EmptyString
  | lang_star_app r s1 s2 :
      lang ic r s1 -> lang ic (Star r) s2 -> lang ic (Star r) (s1 ++ s2)
  | lang_plus r s1 s2 :
      lang ic r s1 -> lang ic (Star r) s2 -> lang ic (Plus r) (s1 ++ s2)
  | lang_opt_nil r : lang ic (Opt r) EmptyString
  | lang_opt r s : lang ic r s -> lang ic (Opt r) s.

(** The matcher below decides [lang] by derivatives, which gives the same
    truth value as the backtracking search of [re] for these expressions
    (no back-references, no look-around). *)

Fixpoint nullable (r : regex) : bool :=
  match r with
  | Fail => false
  | Empty => true
  | Lit _ | Set_ _ | Space | Digit | Word | Dot => false
  | Seq r1 r2 => nullable r1 && nullable r2
  | Alt r1 r2 => nullable r1 || nullable r2
  | Star _ => true
  | Plus r1 => nullable r1
  | Opt _ => true
  end.

Definition mk_seq (r1 r2 : regex) : regex :=
  match r1, r2 with
  | Fail, _ => Fail
  | _, Fail => Fail
  | Empty, _ => r2
  | _, _ => Seq r1 r2
  end.

Definition mk_alt (r1 r2 : regex) : regex :=
  match r1, r2 with
  | Fail, _ => r2
  | _, Fail => r1
  | _, _ => Alt r1 r2
  end.

(** What is left of [r] after reading the character [x]. *)
Fixpoint deriv (ic : bool) (x : ascii) (r : regex) : regex :=
  match r with
  | Fail | Empty => Fail
  | Lit _ | Set_ _ | Space | Digit | Word | Dot =>
      if class_match ic r x then Empty else Fail
  | Seq r1 r2 =>
      mk_alt (mk_seq (deriv ic x r1) r2)
             (if nullable r1 then deriv ic x r2 else Fail)
  | Alt r1 r2 => mk_alt (deriv ic x r1) (deriv ic x r2)
  | Star r1 => mk_seq (deriv ic x r1) (Star r1)
  | Plus r1 => mk_seq (deriv ic x r1) (Star r1)
  | Opt r1 => deriv ic x r1
  end.

(** Where [$] holds: at the end of the string, before a final line feed,
    and with MULTILINE before every line feed. *)
Definition at_end (ml : bool) (s : string) : bool :=
  match s with
  | EmptyString => true
  | String c rest =>
      (Ascii.eqb c newline
       && (ml || match rest with EmptyString => true | _ => false end))%bool
  end.

(** Is there a prefix of [s] in the language of [r] that ends where [$]
    holds? *)
Fixpoint run (ic ml : bool) (r : regex) (s : string) : bool :=
  (nullable r && at_end ml s
   || match s with
      | EmptyString => false
      | String x s' => run ic ml (deriv ic x r) s'
      end)%bool.

(** [p.match(s)] as a truth value: a match anchored at position 0, where
    [^] holds. *)
Definition match_ (p : pattern) (s : string) : bool :=
  run (ignorecase p) (multiline p) (body p) s.

End Re.

(** ** The chapter finder *)

Record chapter : Type := Chapter {
  title : string;
  start_line : Z;
  end_line : Z
}.

Definition sentinel_title : string := "Introduction/Beginning".

Import Re.

(** [Chapter\s+\d+|CHAPTER\s+\d+|Chapter\s+[IVXLCDM]+|Chapter\s+[A-Za-z]+|(\d+\.\s+)?\w+\s+.*] *)
Definition chapter_rule : regex :=
  alts [ seqs [word "Chapter"; Plus Space; Plus Digit];
         seqs [word "CHAPTER"; Plus Space; Plus Digit];
         seqs [word "Chapter"; Plus Space;
               Plus (Set_ [SChar "I"; SChar "V"; SChar "X"; SChar "L";
                           SChar "C"; SChar "D"; SChar "M"])];
         seqs [word "Chapter"; Plus Space;
               Plus (Set_ [SRange "A" "Z"; SRange "a" "z"])];
         seqs [Opt (seqs [Plus Digit; Lit "."; Plus Space]);
               Plus Word; Plus Space; Star Dot] ].

(** [Part\s+\d+|PART\s+\d+|Part\s+[IVXLCDM]+|Part\s+[A-Za-z]+] *)
Definition part_rule : regex :=
  alts [ seqs [word "Part"; Plus Space; Plus Digit];
         seqs [word "PART"; Plus Space; Plus Digit];
         seqs [word "Part"; Plus Space;
               Plus (Set_ [SChar "I"; SChar "V"; SChar "X"; SChar "L";
                           SChar "C"; SChar "D"; SChar "M"])];
         seqs [word "Part"; Plus Space;
               Plus (Set_ [SRange "A" "Z"; SRange "a" "z"])] ].

(** The two compiled patterns, [^(rule)\s*$] with
    [re.MULTILINE | re.IGNORECASE]. *)
Definition chapter_patterns : list pattern :=
  [ Pattern (Seq chapter_rule (Star Space)) true true;
    Pattern (Seq part_rule (Star Space)) true true ].

(** The variables of the loop of [find_chapters]. *)
Record scan : Type := Scan {
  chapters : list chapter;
  current_chapter_title : string;
  current_chapter_start_index : Z
}.

(** [chapters.append({...})] under [if current_chapter_title:] *)
Definition close_chapter (st : scan) (last : Z) : list chapter :=
  if PyStr.truthy (current_chapter_title st)
  then chapters st ++ [Chapter (PyStr.strip (current_chapter_title st))
                               (current_chapter_start_index st) last]
  else chapters st.

(** The inner loop [for pattern in chapter_patterns], left at the first
    pattern that matches. *)
Fixpoint try_patterns (ps : list pattern) (i : Z) (line : string)
    (st : scan) : scan :=
  match ps with
  | [] => st
  | p :: ps' =>
      if match_ p (PyStr.strip line)
      then Scan (close_chapter st (i - 1)) (PyStr.strip line) i
      else try_patterns ps' i line st
  end.

(** The outer loop [for i, line in enumerate(lines)], from index [i]. *)
Fixpoint scan_lines (ps : list pattern) (i : Z) (lines : list string)
    (st : scan) : scan :=
  match lines with
  | [] => st
  | line :: rest => scan_lines ps (i + 1) rest (try_patterns ps i line st)
  end.

Definition nonempty_range (c : chapter) : bool :=
  Z.geb (end_line c) (start_line c).

(** The list [chapters] after the last chapter is added, before the
    filter. *)
Definition scan_chapters (ps : list pattern) (text_content : string)
    : list chapter :=
  let lines := PyStr.split_lines text_content in
  let st := scan_lines ps 0 lines (Scan [] sentinel_title 0) in
  close_chapter st (Z.of_nat (List.length lines) - 1).

Definition find_chapters_with (ps : list pattern) (text_content : string)
    : list chapter :=
  filter nonempty_range (scan_chapters ps text_content).

Definition find_chapters (text_content : string) : list chapter :=
  find_chapters_with chapter_patterns text_content.

Definition nl : string := String PyStr.newline EmptyString.

(** ** Reading the result as a partition of the lines *)

Local Open Scope Z_scope.
Local Open Scope list_scope.

(** [contiguous a cs b]: the chapters [cs] follow each other without gap or
    overlap, the first starts at line [a] and the line after the last one
    is [b]. *)
Fixpoint contiguous (a : Z) (cs : list chapter) (b : Z) : Prop :=
  match cs with
  | [] => a = b
  | c :: cs' => start_line c = a /\ contiguous (end_line c + 1) cs' b
  end.

(** The chapter recorded when line 0 is itself a heading. *)
Definition empty_sentinel : chapter := Chapter sentinel_title 0 (-1).

(** Every chapter has a non-empty range, but for an [empty_sentinel] that
    may come first. *)
Definition sentinel_first (cs : list chapter) : Prop :=
  Forall (fun c => nonempty_range c = true) cs
  \/ exists cs', cs = empty_sentinel :: cs'
                 /\ Forall (fun c => nonempty_range c = true) cs'.

(** What the loop of [find_chapters] maintains before reading line [i]. *)
Record scan_inv (i : Z) (st : scan) : Prop := ScanInv {
  inv_title : PyStr.truthy (current_chapter_title st) = true;
  inv_start : (i = 0 /\ st = Scan [] sentinel_title 0)
              \/ 0 <= current_chapter_start_index st < i;
  inv_chain : contiguous 0 (chapters st) (current_chapter_start_index st);
  inv_closed : sentinel_first (chapters st)
}.

(** ** Python values, exceptions and effects *)

Module Py.

#[warnings="-register-all"]
Inductive value : Type :=
  | VNone
  | VBool (b : bool)
  | VInt (n : Z)
  | VStr (s : string)
  | VList (items : list value)
  | VDict (entries : list (string * value))
  | VObj (attrs : list (string * value)).  (* an object read by attribute *)

(** A raised exception: its class, its message ([str(e)]) and whether the
    class derives from [Exception], which is what [except Exception]
    catches. *)
Record exn : Type := Exn {
  exn_class : string;
  exn_message : string;
  is_exception : bool
}.

Inductive outcome (A : Type) : Type :=
  | Return (a : A)
  | Raise (e : exn).
Arguments Return {A} a.
Arguments Raise {A} e.

Definition attribute_error (type name : string) : exn :=
  Exn "AttributeError"
      ("'" ++ type ++ "' object has no attribute '" ++ name ++ "'")%string
      true.

Definition type_error (msg : string) : exn := Exn "TypeError" msg true.

Definition index_error (msg : string) : exn := Exn "IndexError" msg true.

Definition key_error (msg : string) : exn := Exn "KeyError" msg true.

(** What the program does that can be seen from outside, in order.
    [GatewayCall] is a log entry written when [call_gemini_api] is entered;
    the others are the calls that the program makes: [StError] is a call of
    [st.error] and [Printed] a call of [print], whether or not the call
    then raises. *)
Inductive event : Type :=
  | GatewayCall (prompt : string) (schema : value)
  | Fetch (url : string) (options : value)
  | StError (msg : string)
  | Printed (msg : string)
  | SpinnerEnter (msg : string)
  | SpinnerExit.

(** A computation reads the events so far and returns its outcome with the
    events extended. *)
Definition M (A : Type) : Type := list event -> outcome A * list event.

Definition ret {A : Type} (a : A) : M A := fun w => (Return a, w).

Definition raise {A : Type} (e : exn) : M A := fun w => (Raise e, w).

Definition bind {A B : Type} (c : M A) (k : A -> M B) : M B :=
  fun w => match c w with
           | (Return a, w') => k a w'
           | (Raise e, w') => (Raise e, w')
           end.

Definition lift {A : Type} (o : outcome A) : M A := fun w => (o, w).

Definition emit (e : event) : M unit := fun w => (Return tt, w ++ [e]).

(** [try: body  except Exception as e: handler e] *)
Definition try_except {A : Type} (body : M A) (handler : exn -> M A) : M A :=
  fun w => match body w with
           | (Raise e, w') =>
               if is_exception e then handler e w' else (Raise e, w')
           | r => r
           end.

(** [with st.spinner(msg): body] *)
Definition with_spinner {A : Type} (msg : string) (body : M A) : M A :=
  fun w => let (r, w') := body (w ++ [SpinnerEnter msg]) in
           (r, w' ++ [SpinnerExit]).

Definition obind {A B : Type} (o : outcome A) (k : A -> outcome B)
    : outcome B :=
  match o with
  | Return a => k a
  | Raise e => Raise e
  end.

Definition type_name (v : value) : string :=
  match v with
  | VNone => "NoneType"
  | VBool _ => "bool"
  | VInt _ => "int"
  | VStr _ => "str"
  | VList _ => "list"
  | VDict _ => "dict"
  | VObj _ => "object"
  end.

(** Truth value: [if v:] *)
Definition truthy (v : value) : bool :=
  match v with
  | VNone => false
  | VBool b => b
  | VInt n => negb (Z.eqb n 0)
  | VStr s => PyStr.truthy s
  | VList items => match items with [] => false | _ => true end
  | VDict entries => match entries with [] => false | _ => true end
  | VObj _ => true
  end.

Fixpoint assoc (name : string) (l : list (string * value)) : option value :=
  match l with
  | [] => None
  | (k, v) :: l' => if String.eqb k name then Some v else assoc name l'
  end.

(** [v.name], for a name that no built-in type has as an attribute (the
    program reads [candidates], [content], [parts] and [text]). *)
Definition getattr (v : value) (name : string) : outcome value :=
  match v with
  | VObj attrs =>
      match assoc name attrs with
      | Some x => Return x
      | None => Raise (attribute_error "object" name)
      end
  | _ => Raise (attribute_error (type_name v) name)
  end.

(** [len(v)] *)
Definition len (v : value) : outcome Z :=
  match v with
  | VStr s => Return (Z.of_nat (String.length s))
  | VList items => Return (Z.of_nat (List.length items))
  | VDict entries => Return (Z.of_nat (List.length entries))
  | _ => Raise (type_error ("object of type '" ++ type_name v
                            ++ "' has no len()")%string)
  end.

(** [v[0]] *)
Definition first (v : value) : outcome value :=
  match v with
  | VList (x :: _) => Return x
  | VList [] => Raise (index_error "list index out of range")
  | VStr (String c _) => Return (VStr (String c EmptyString))
  | VStr EmptyString => Raise (index_error "string index out of range")
  | VDict _ => Raise (key_error "0")
  | _ => Raise (type_error ("'" ++ type_name v
                            ++ "' object is not subscriptable")%string)
  end.

(** The public attributes of a list object, all of them methods. *)
Definition list_attributes : list string :=
  ["append"; "clear"; "copy"; "count"; "extend"; "index"; "insert"; "pop";
   "remove"; "reverse"; "sort"]%string.

(** The Python runtime and the services outside the program: what the
    built-in list methods do, [json.dumps], [json.loads], the request
    [st.experimental_user.fetch(url, options)], [response.json()], the
    text of a value in an f-string, and how a call of [st.error] and of
    [print] ends.  Each of them may raise. *)
Record runtime : Type := Runtime {
  list_method : string -> list value -> list value -> outcome (list value);
  json_dumps : value -> outcome string;
  json_loads : value -> outcome value;
  fetch : string -> value -> outcome value;
  response_json : value -> outcome value;
  format : value -> outcome string;
  st_error_outcome : string -> outcome unit;
  print_outcome : string -> outcome unit
}.

(** [l.name(args)] on a list [l] with a public [name]: the attribute is
    looked up first, then called; the result is the list afterwards. *)
Definition call_list_method (rt : runtime) (name : string) (l : list value)
    (args : list value) : outcome (list value) :=
  if existsb (String.eqb name) list_attributes
  then list_method rt name l args
  else Raise (attribute_error "list" name).

(** [int(x)] for a float [x] *)
Definition int_of_float (x : spec_float) : outcome Z :=
  match x with
  | S754_zero _ => Return 0
  | S754_infinity _ =>
      Raise (Exn "OverflowError" "cannot convert float infinity to integer"
                 true)
  | S754_nan =>
      Raise (Exn "ValueError" "cannot convert float NaN to integer" true)
  | S754_finite s m e =>
      let a := if 0 <=? e then Z.pos m * 2 ^ e else Z.pos m / 2 ^ (- e) in
      Return (if s then - a else a)
  end.

(** Product of two floats (binary64, round to nearest even). *)
Definition float_mul (x y : spec_float) : spec_float := SFmul 53 1024 x y.

(** The float [100.0]. *)
Definition float_100 : spec_float := S754_finite false 7036874417766400 (-46).

(** The float [0.3]. *)
Definition float_0_3 : spec_float := S754_finite false 5404319552844595 (-54).

(** [str(n)] for an integer [n] *)
Definition str_of_int (n : Z) : string := NilZero.string_of_int (Z.to_int n).

End Py.

Import Py.

Declare Scope py_scope.
Delimit Scope py_scope with py.
Notation "x <- c ;; k" := (bind c (fun x => k))
  (at level 61, c at next level, right associativity) : py_scope.
Notation "c ;; k" := (bind c (fun _ => k))
  (at level 61, right associativity) : py_scope.

(** ** The AI gateway *)

Definition api_endpoint : string :=
  "https://generativelanguage.googleapis.com/v1beta/models/gemini-2.0-flash:generateContent?key=".

(** [{ "role": "user", "parts": [{ "text": prompt }] }] *)
Definition user_message (prompt : string) : value :=
  VDict [("role", VStr "user");
         ("parts", VList [VDict [("text", VStr prompt)]])]%string.

(** The condition on the reply, with the short cuts of [and]. *)
Definition has_reply (result : value) : outcome bool :=
  obind (getattr result "candidates") (fun candidates =>
  if negb (truthy candidates) then Return false else
  obind (len candidates) (fun n =>
  if negb (0 <? n) then Return false else
  obind (first candidates) (fun candidate =>
  obind (getattr candidate "content") (fun content =>
  if negb (truthy content) then Return false else
  obind (getattr content "parts") (fun parts =>
  obind (len parts) (fun m =>
  Return (0 <? m))))))).

(** [result.candidates[0].content.parts[0].text] *)
Definition reply_text (result : value) : outcome value :=
  obind (getattr result "candidates") (fun candidates =>
  obind (first candidates) (fun candidate =>
  obind (getattr candidate "content") (fun content =>
  obind (getattr content "parts") (fun parts =>
  obind (first parts) (fun part =>
  getattr part "text"))))).

(** The options of the request: [{ "method": "POST", "headers": ...,
    "body": body }] *)
Definition request_options (body : string) : value :=
  VDict [("method", VStr "POST");
         ("headers", VDict [("Content-Type", VStr "application/json")]);
         ("body", VStr body)]%string.

(** [st.error(msg)] *)
Definition st_error (rt : runtime) (msg : string) : M unit :=
  (emit (StError msg) ;; lift (st_error_outcome rt msg))%py.

(** [print(msg)] *)
Definition py_print (rt : runtime) (msg : string) : M unit :=
  (emit (Printed msg) ;; lift (print_outcome rt msg))%py.

(** The body of the [try] of [call_gemini_api]. *)
Definition request (rt : runtime) (apiUrl : string) (payload schema : value)
    : M value :=
  (body <- lift (json_dumps rt payload) ;;
   let options := request_options body in
   emit (Fetch apiUrl options) ;;
   response <- lift (fetch rt apiUrl options) ;;
   result <- lift (response_json rt response) ;;
   ok <- lift (has_reply result) ;;
   if ok then
     text_response <- lift (reply_text result) ;;
     if truthy schema then lift (json_loads rt text_response)
     else ret text_response
   else
     st_error rt
       "Failed to get a valid response from the AI model. Please try again." ;;
     shown <- lift (format rt result) ;;
     py_print rt ("AI response error: " ++ shown)%string ;;
     ret VNone)%py.

(** The handler [except Exception as e] of [call_gemini_api]. *)
Definition request_failed (rt : runtime) (e : exn) : M value :=
  (st_error rt ("An error occurred while calling the AI model: "
                ++ exn_message e)%string ;;
   ret VNone)%py.

(** [payload], with the generation config when [schema] is true. *)
Definition make_payload (chatHistory : list value) (schema : value) : value :=
  let payload := [("contents", VList chatHistory)]%string in
  VDict (if truthy schema
         then payload ++ [("generationConfig",
                           VDict [("responseMimeType",
                                   VStr "application/json");
                                  ("responseSchema", schema)])]%string
         else payload).

(** [call_gemini_api(prompt, schema=None)]; [schema] is [VNone] when the
    caller gives none. *)
Definition call_gemini_api (rt : runtime) (prompt : string) (schema : value)
    : M value :=
  (emit (GatewayCall prompt schema) ;;
   let chatHistory := [] in
   chatHistory <- lift (call_list_method rt "push" chatHistory
                          [user_message prompt]) ;;
   let payload := make_payload chatHistory schema in
   let apiKey := EmptyString in
   let apiUrl := (api_endpoint ++ apiKey)%string in
   try_except (request rt apiUrl payload schema) (request_failed rt))%py.

(** ** Summary and quiz *)

(** The prompt of [summarize_book] up to the embedded text. *)
Definition summary_head (summary_length_ratio : spec_float)
    : outcome string :=
  obind (int_of_float (float_mul summary_length_ratio float_100)) (fun pct =>
  Return ("Please summarize the following book text in a concise manner, aiming for about "
          ++ str_of_int pct
          ++ "% of the original length. Focus on the main plot, key characters, and significant events:"
          ++ nl ++ nl)%string).

Definition summary_prompt (text_content : string)
    (summary_length_ratio : spec_float) : outcome string :=
  obind (summary_head summary_length_ratio) (fun head =>
  Return (head ++ PyStr.slice_to 8000 text_content)%string).

(** [summarize_book(text_content, summary_length_ratio=0.3)] *)
Definition summarize_book (rt : runtime) (text_content : string)
    (summary_length_ratio : spec_float) : M value :=
  (prompt <- lift (summary_prompt text_content summary_length_ratio) ;;
   with_spinner "Generating summary..."
     (summary <- call_gemini_api rt prompt VNone ;;
      ret summary))%py.

Definition quiz_error : value :=
  VDict [("error", VStr "Please provide text to generate a quiz.")]%string.

Definition quiz_schema : value :=
  let str_type := VDict [("type", VStr "STRING")]%string in
  VDict [("type", VStr "ARRAY");
         ("items",
          VDict [("type", VStr "OBJECT");
                 ("properties",
                  VDict [("question", str_type);
                         ("options",
                          VDict [("type", VStr "ARRAY");
                                 ("items", str_type)]);
                         ("correct_answer", str_type)]);
                 ("required",
                  VList [VStr "question"; VStr "options";
                         VStr "correct_answer"])])]%string.

Definition quiz_head : string :=
  ("Generate one multiple-choice question from the following text." ++ nl
   ++ "    The question should have four options, and one correct answer."
   ++ nl
   ++ "    The correct answer must be one of the provided options." ++ nl
   ++ nl ++ "    Text:" ++ nl ++ "    ")%string.

Definition quiz_tail : string := (nl ++ "    ")%string.

Definition quiz_prompt (text_segment : string) : string :=
  let input_text_for_quiz := PyStr.slice_to 2000 text_segment in
  (quiz_head ++ input_text_for_quiz ++ quiz_tail)%string.

(** [generate_book_quiz(text_segment)] *)
Definition generate_book_quiz (rt : runtime) (text_segment : string)
    : M value :=
  if negb (PyStr.truthy text_segment) then ret quiz_error
  else
    (let prompt := quiz_prompt text_segment in
     with_spinner "Generating quiz question..."
       (quiz_data <- call_gemini_api rt prompt quiz_schema ;;
        ret quiz_data))%py.

(** ** Sample inputs *)

(** A line is a heading when one of the two patterns matches it, stripped. *)
Definition is_heading (line : string) : bool :=
  existsb (fun p => match_ p (PyStr.strip line)) chapter_patterns.

(** ["Chapter 1\nfoo\nChapter 2\nbar"] *)
Definition text_two_chapters : string :=
  ("Chapter 1" ++ nl ++ "foo" ++ nl ++ "Chapter 2" ++ nl ++ "bar")%string.

(** ["Chapter 1\nChapter 2\nbody"] *)
Definition text_heading_pair : string :=
  ("Chapter 1" ++ nl ++ "Chapter 2" ++ nl ++ "body")%string.

(** ["foo\nbar"], a text without heading *)
Definition text_plain : string := ("foo" ++ nl ++ "bar")%string.

(** A reply of the service in the expected shape, carrying [text]. *)
Definition envelope (text : value) : value :=
  VObj [("candidates",
         VList [VObj [("content",
                       VObj [("parts",
                              VList [VObj [("text", text)]])])]])]%string.

(** A runtime whose service answers every request with [envelope text].
    Its [append] adds the arguments at the end and its other list methods
    refuse their arguments; [json.dumps] gives ["{}"], [json.loads] and
    [response.json()] hand their argument back, and [st.error] and [print]
    return. *)
Definition reply_runtime (text : value) : runtime :=
  Runtime
    (fun name l args =>
       if String.eqb name "append" then Return (l ++ args)
       else Raise (type_error "bad arguments"))
    (fun _ => Return "{}"%string)
    (fun v => Return v)
    (fun _ _ => Return (envelope text))
    (fun response => Return response)
    (fun _ => Return "<reply>"%string)
    (fun _ => Return tt)
    (fun _ => Return tt).



(** ** The shape of a heading *)

(** [s] without its leading characters of class [f]. *)
Fixpoint drop_while (f : ascii -> bool) (s : string) : string :=
  match s with
  | EmptyString => EmptyString
  | String c s' => if f c then drop_while f s' else s
  end.

(** Are all the characters of [s] of class [f]? *)
Fixpoint all_chars (f : ascii -> bool) (s : string) : bool :=
  match s with
  | EmptyString => true
  | String c s' => f c && all_chars f s'
  end.

(** [s] begins with one or more word characters followed by a white-space
    character. *)
Definition word_then_space (s : string) : bool :=
  match s with
  | EmptyString => false
  | String c _ =>
      PyStr.isword c
      && match drop_while PyStr.isword s with
         | String d _ => PyStr.isspace d
         | EmptyString => false
         end
  end.

(** What follows a leading number, a full stop and white space, if [s]
    begins so. *)
Definition after_number (s : string) : option string :=
  match s with
  | EmptyString => None
  | String c _ =>
      if PyStr.isdecimal c then
        match drop_while PyStr.isdecimal s with
        | String dot r =>
            if Ascii.eqb dot "."
            then match r with
                 | String d _ =>
                     if PyStr.isspace d
                     then Some (drop_while PyStr.isspace r)
                     else None
                 | EmptyString => None
                 end
            else None
        | EmptyString => None
        end
      else None
  end.

Definition heading_shape (s : string) : bool :=
  word_then_space s
  || match after_number s with
     | Some r => word_then_space r
     | None => false
     end.

(** The expressions that match one character. *)
Definition is_class (r : regex) : bool :=
  match r with
  | Lit _ | Set_ _ | Space | Digit | Word | Dot => true
  | _ => false
  end.

(** All the characters. *)
Definition all_ascii : list ascii := map ascii_of_nat (seq 0 256).

(** The leading characters of class [f] of [s]. *)
Fixpoint take_while (f : ascii -> bool) (s : string) : string :=
  match s with
  | EmptyString => EmptyString
  | String c s' => if f c then String c (take_while f s') else EmptyString
  end.

(** Is every character of class [f] of class [g]? *)
Definition class_sub (f g : ascii -> bool) : bool :=
  forallb (fun x => implb (f x) (g x)) all_ascii.

(** ** The chapter list, described by its heading lines *)

(** The heading lines of [lines], numbered from [i], with their titles. *)
Fixpoint heading_lines (i : Z) (lines : list string) : list (Z * string) :=
  match lines with
  | [] => []
  | l :: ls =>
      if is_heading l then (i, PyStr.strip l) :: heading_lines (i + 1) ls
      else heading_lines (i + 1) ls
  end.

(** One chapter per start, up to the line before the next start, the last
    one up to line [n - 1]. *)
Fixpoint cut (starts : list (Z * string)) (n : Z) : list chapter :=
  match starts with
  | [] => []
  | (i, t) :: rest =>
      Chapter t i (match rest with
                   | (j, _) :: _ => j - 1
                   | [] => n - 1
                   end)
      :: cut rest n
  end.

(** [increasing lo hs n]: the line numbers of [hs] increase strictly and
    lie between [lo] and [n - 1]. *)
Fixpoint increasing (lo : Z) (hs : list (Z * string)) (n : Z) : Prop :=
  match hs with
  | [] => True
  | (j, _) :: rest => lo <= j < n /\ increasing (j + 1) rest n
  end.

(** The starts of the chapters: the heading lines, after line 0 under the
    sentinel title when line 0 is no heading. *)
Definition chapter_starts (lines : list string) : list (Z * string) :=
  match lines with
  | l :: _ =>
      if is_heading l then heading_lines 0 lines
      else (0, sentinel_title) :: heading_lines 0 lines
  | [] => (0, sentinel_title) :: heading_lines 0 lines
  end.

(** ** The page: chapter selection and chapter text *)

(** ["\n".join(l)] and the like *)
Fixpoint join (sep : string) (l : list string) : string :=
  match l with
  | [] => EmptyString
  | [x] => x
  | x :: rest => (x ++ sep ++ join sep rest)%string
  end.

(** A bound of a slice brought into [0 .. n]. *)
Definition slice_index (n i : Z) : Z :=
  let i := if i <? 0 then i + n else i in
  if i <? 0 then 0 else if n <? i then n else i.

(** [l[a:b]] *)
Definition list_slice {A : Type} (l : list A) (a b : Z) : list A :=
  let n := Z.of_nat (List.length l) in
  let a' := slice_index n a in
  let b' := slice_index n b in
  firstn (Z.to_nat (b' - a')) (skipn (Z.to_nat a') l).

(** [next((c for c in chapters if c["title"] == selected), None)] *)
Definition select_chapter (chapters : list chapter) (selected : string)
    : option chapter :=
  find (fun c => String.eqb (title c) selected) chapters.

(** [lines[start_line : end_line + 1]] *)
Definition chapter_text_lines (lines : list string) (c : chapter)
    : list string :=
  list_slice lines (start_line c) (end_line c + 1).

(** ["\n".join(chapter_text_lines)] *)
Definition chapter_text (lines : list string) (c : chapter) : string :=
  join nl (chapter_text_lines lines c).

(** ** The slider of the summary length *)

(** The float of an integer. *)
Definition float_of_int (n : Z) : spec_float :=
  binary_normalize 53 1024 n 0 false.

(** Quotient of two floats (binary64, round to nearest even). *)
Definition float_div (x y : spec_float) : spec_float := SFdiv 53 1024 x y.

(** [summary_length / 100], the ratio that the page hands to
    [summarize_book] for the slider value [summary_length]. *)
Definition slider_ratio (summary_length : Z) : spec_float :=
  float_div (float_of_int summary_length) (float_of_int 100).

(** The slider values whose percentage comes out one too small. *)
Definition slips (k : Z) : bool := (k =? 29) || (k =? 57) || (k =? 58).

Definition is_fetch (e : event) : bool :=
  match e with Fetch _ _ => true | _ => false end.

Definition is_st_error (e : event) : bool :=
  match e with StError _ => true | _ => false end.

(** * Properties *)

(** ** Strings *)

Lemma split_lines_not_nil (s : string) : PyStr.split_lines s <> [].
Proof.
  induction s as [|c s IH]; simpl; [discriminate|].
  destruct (Ascii.eqb c PyStr.newline); [discriminate|].
  destruct (PyStr.split_lines s); discriminate.
Qed.

Lemma split_lines_length (s : string) :
  (1 <= List.length (PyStr.split_lines s))%nat.
Proof.
  pose proof (split_lines_not_nil s) as H.
  destruct (PyStr.split_lines s); [congruence | simpl; lia].
Qed.

Lemma slice_to_length (n : nat) (s : string) :
  String.length (PyStr.slice_to n s) = Nat.min n (String.length s).
Proof.
  revert s; induction n as [|n IH]; intros [|c s]; simpl; auto.
Qed.

Lemma slice_to_startswith (n : nat) (s : string) :
  PyStr.startswith (PyStr.slice_to n s) s = true.
Proof.
  revert s; induction n as [|n IH]; intros [|c s]; simpl; auto.
  rewrite Ascii.eqb_refl. apply IH.
Qed.

Lemma slice_to_all (n : nat) (s : string) :
  (String.length s <= n)%nat -> PyStr.slice_to n s = s.
Proof.
  revert s; induction n as [|n IH]; intros [|c s]; simpl; intros H; auto.
  - lia.
  - f_equal. apply IH. lia.
Qed.

Lemma append_length (a b : string) :
  String.length (a ++ b)%string = (String.length a + String.length b)%nat.
Proof. induction a as [|c a IH]; simpl; auto. Qed.

Lemma rstrip_idempotent (s : string) :
  PyStr.rstrip (PyStr.rstrip s) = PyStr.rstrip s.
Proof.
  induction s as [|c s IH]; [reflexivity|].
  cbn [PyStr.rstrip]. destruct (PyStr.rstrip s) as [|d r] eqn:E.
  - destruct (PyStr.isspace c) eqn:Ec; simpl; [reflexivity|].
    rewrite Ec. reflexivity.
  - cbn [PyStr.rstrip]. cbn [PyStr.rstrip] in IH. rewrite IH. reflexivity.
Qed.

(** A string that does not begin with white space keeps its first
    character under [rstrip], and so is left alone by [lstrip] afterwards. *)
Lemma lstrip_rstrip (s : string) :
  PyStr.lstrip s = s -> PyStr.lstrip (PyStr.rstrip s) = PyStr.rstrip s.
Proof.
  destruct s as [|c s]; [reflexivity|].
  intros H. cbn [PyStr.lstrip] in H.
  destruct (PyStr.isspace c) eqn:Ec.
  - exfalso.
    assert (L : forall t, (String.length (PyStr.lstrip t)
                           <= String.length t)%nat).
    { induction t as [|d t IHt]; simpl; [lia|].
      destruct (PyStr.isspace d); simpl; lia. }
    specialize (L s). rewrite H in L. simpl in L. lia.
  - cbn [PyStr.rstrip]. destruct (PyStr.rstrip s); rewrite ?Ec;
      cbn [PyStr.lstrip]; rewrite Ec; reflexivity.
Qed.

Lemma lstrip_idempotent (s : string) :
  PyStr.lstrip (PyStr.lstrip s) = PyStr.lstrip s.
Proof.
  induction s as [|c s IH]; [reflexivity|].
  simpl. destruct (PyStr.isspace c) eqn:Ec; [exact IH|].
  simpl. rewrite Ec. reflexivity.
Qed.

Lemma strip_idempotent (s : string) :
  PyStr.strip (PyStr.strip s) = PyStr.strip s.
Proof.
  unfold PyStr.strip.
  rewrite (lstrip_rstrip _ (lstrip_idempotent s)).
  apply rstrip_idempotent.
Qed.

Lemma lstrip_one_line (s : string) :
  PyStr.one_line s = true -> PyStr.one_line (PyStr.lstrip s) = true.
Proof.
  induction s as [|c s IH]; [auto|].
  intros H. cbn [PyStr.lstrip]. destruct (PyStr.isspace c); [|exact H].
  simpl in H. apply andb_prop in H. destruct H as [_ H]. auto.
Qed.

Lemma rstrip_one_line (s : string) :
  PyStr.one_line s = true -> PyStr.one_line (PyStr.rstrip s) = true.
Proof.
  induction s as [|c s IH]; [auto|].
  intros H. simpl in H. apply andb_prop in H. destruct H as [Hc Hs].
  cbn [PyStr.rstrip]. specialize (IH Hs).
  destruct (PyStr.rstrip s) as [|d r].
  - destruct (PyStr.isspace c); simpl; [reflexivity|].
    rewrite Hc. reflexivity.
  - cbn [PyStr.one_line]. rewrite Hc. exact IH.
Qed.

Lemma strip_one_line (s : string) :
  PyStr.one_line s = true -> PyStr.one_line (PyStr.strip s) = true.
Proof.
  intros H. unfold PyStr.strip. apply rstrip_one_line, lstrip_one_line, H.
Qed.

(** The pieces of [split('\n')] hold no line feed. *)
Lemma split_lines_one_line (s l : string) :
  In l (PyStr.split_lines s) -> PyStr.one_line l = true.
Proof.
  revert l; induction s as [|c s IH]; intros l H.
  - destruct H as [<-|[]]. reflexivity.
  - cbn [PyStr.split_lines] in H.
    destruct (Ascii.eqb c PyStr.newline) eqn:Ec.
    + destruct H as [<-|H]; [reflexivity | auto].
    + destruct (PyStr.split_lines s) as [|l0 ls].
      * destruct H as [<-|[]]. simpl. rewrite Ec. reflexivity.
      * destruct H as [<-|H].
        -- simpl. rewrite Ec. simpl. apply IH. left. reflexivity.
        -- apply IH. right. exact H.
Qed.

(** ** The matcher decides the language of the expression *)

Section Matcher.

Variable ic : bool.

Lemma append_empty_r (s : string) : (s ++ "")%string = s.
Proof. induction s as [|c s IH]; simpl; congruence. Qed.

Lemma append_eq_empty (s1 s2 : string) :
  (s1 ++ s2)%string = EmptyString -> s1 = EmptyString /\ s2 = EmptyString.
Proof. destruct s1; simpl; [auto | discriminate]. Qed.

Lemma lang_Fail (s : string) : ~ lang ic Fail s.
Proof. intros H. inversion H; subst. discriminate. Qed.

Lemma lang_Empty (s : string) : lang ic Empty s -> s = EmptyString.
Proof. intros H. inversion H; subst; [reflexivity | discriminate]. Qed.

Lemma lang_Seq (r1 r2 : regex) (s : string) :
  lang ic (Seq r1 r2) s ->
  exists s1 s2, s = (s1 ++ s2)%string /\ lang ic r1 s1 /\ lang ic r2 s2.
Proof. intros H. inversion H; subst; [discriminate | eauto]. Qed.

Lemma lang_Alt (r1 r2 : regex) (s : string) :
  lang ic (Alt r1 r2) s -> lang ic r1 s \/ lang ic r2 s.
Proof. intros H. inversion H; subst; [discriminate | auto | auto]. Qed.

Lemma nullable_lang (r : regex) : nullable r = true <-> lang ic r EmptyString.
Proof.
  split.
  - induction r; simpl; intros H; try discriminate.
    + constructor.
    + apply andb_prop in H. destruct H as [H1 H2].
      change EmptyString with ("" ++ "")%string. constructor; auto.
    + apply orb_prop in H. destruct H as [H|H];
        [apply lang_alt_l | apply lang_alt_r]; auto.
    + constructor.
    + change EmptyString with ("" ++ "")%string.
      apply lang_plus; [auto | constructor].
    + constructor.
  - intros H. remember EmptyString as s eqn:Es.
    induction H; simpl; try reflexivity; try discriminate.
    + apply append_eq_empty in Es. destruct Es as [-> ->].
      rewrite IHlang1, IHlang2; auto.
    + rewrite IHlang; auto.
    + rewrite IHlang; auto using orb_true_r.
    + apply append_eq_empty in Es. destruct Es as [-> ->]. auto.
Qed.

Lemma mk_seq_lang (r1 r2 : regex) (s : string) :
  lang ic (mk_seq r1 r2) s <-> lang ic (Seq r1 r2) s.
Proof.
  assert (HF1 : forall r, lang ic Fail s <-> lang ic (Seq Fail r) s).
  { intros r; split; intros H; [destruct (lang_Fail _ H)|].
    apply lang_Seq in H. destruct H as [s1 [s2 [_ [H _]]]].
    destruct (lang_Fail _ H). }
  assert (HF2 : forall r, lang ic Fail s <-> lang ic (Seq r Fail) s).
  { intros r; split; intros H; [destruct (lang_Fail _ H)|].
    apply lang_Seq in H. destruct H as [s1 [s2 [_ [_ H]]]].
    destruct (lang_Fail _ H). }
  assert (HE : forall r, lang ic r s <-> lang ic (Seq Empty r) s).
  { intros r; split; intros H.
    - change s with ("" ++ s)%string. constructor; [constructor | exact H].
    - apply lang_Seq in H. destruct H as [s1 [s2 [-> [H1 H2]]]].
      apply lang_Empty in H1. subst. exact H2. }
  destruct r1; try apply HF1;
    destruct r2; try apply HF2; try apply HE; simpl; reflexivity.
Qed.

Lemma mk_alt_lang (r1 r2 : regex) (s : string) :
  lang ic (mk_alt r1 r2) s <-> lang ic (Alt r1 r2) s.
Proof.
  assert (HF1 : forall r, lang ic r s <-> lang ic (Alt Fail r) s).
  { intros r; split; intros H; [apply lang_alt_r; exact H|].
    apply lang_Alt in H. destruct H as [H|H];
      [destruct (lang_Fail _ H) | exact H]. }
  assert (HF2 : forall r, lang ic r s <-> lang ic (Alt r Fail) s).
  { intros r; split; intros H; [apply lang_alt_l; exact H|].
    apply lang_Alt in H. destruct H as [H|H];
      [exact H | destruct (lang_Fail _ H)]. }
  destruct r1; try apply HF1; destruct r2; try apply HF2; simpl; reflexivity.
Qed.

Lemma deriv_class (r : regex) (x : ascii) :
  class_match ic r x = true -> deriv ic x r = Empty.
Proof.
  destruct r; simpl; intros H; try discriminate; rewrite H; reflexivity.
Qed.

Lemma deriv_sound (x : ascii) (r : regex) (s : string) :
  lang ic (deriv ic x r) s -> lang ic r (String x s).
Proof.
  assert (Hatom : forall r0 : regex,
            lang ic (if class_match ic r0 x then Empty else Fail) s ->
            lang ic r0 (String x s)).
  { intros r0 H. destruct (class_match ic r0 x) eqn:E.
    - apply lang_Empty in H. subst. constructor. exact E.
    - destruct (lang_Fail _ H). }
  revert s Hatom; induction r; intros s Hatom H; simpl in H;
    try (destruct (lang_Fail _ H)); try (apply Hatom; exact H).
  - apply mk_alt_lang in H. apply lang_Alt in H. destruct H as [H|H].
    + apply mk_seq_lang in H. apply lang_Seq in H.
      destruct H as [s1 [s2 [-> [H1 H2]]]].
      change (String x (s1 ++ s2)) with (String x s1 ++ s2)%string.
      constructor; [|exact H2]. apply IHr1; [|exact H1].
      intros r0 H0. destruct (class_match ic r0 x) eqn:E.
      * apply lang_Empty in H0. subst. constructor. exact E.
      * destruct (lang_Fail _ H0).
    + destruct (nullable r1) eqn:N; [|destruct (lang_Fail _ H)].
      change (String x s) with ("" ++ String x s)%string.
      constructor; [apply nullable_lang; exact N|].
      apply IHr2; auto.
  - apply mk_alt_lang in H. apply lang_Alt in H. destruct H as [H|H];
      [apply lang_alt_l; apply IHr1 | apply lang_alt_r; apply IHr2]; auto.
  - apply mk_seq_lang in H. apply lang_Seq in H.
    destruct H as [s1 [s2 [-> [H1 H2]]]].
    change (String x (s1 ++ s2)) with (String x s1 ++ s2)%string.
    apply lang_star_app; [|exact H2]. apply IHr; [|exact H1].
    intros r0 H0. destruct (class_match ic r0 x) eqn:E.
    + apply lang_Empty in H0. subst. constructor. exact E.
    + destruct (lang_Fail _ H0).
  - apply mk_seq_lang in H. apply lang_Seq in H.
    destruct H as [s1 [s2 [-> [H1 H2]]]].
    change (String x (s1 ++ s2)) with (String x s1 ++ s2)%string.
    apply lang_plus; [|exact H2]. apply IHr; [|exact H1].
    intros r0 H0. destruct (class_match ic r0 x) eqn:E.
    + apply lang_Empty in H0. subst. constructor. exact E.
    + destruct (lang_Fail _ H0).
  - apply lang_opt. apply IHr; auto.
Qed.

Lemma deriv_complete (x : ascii) (r : regex) (t : string) :
  lang ic r t -> forall s, t = String x s -> lang ic (deriv ic x r) s.
Proof.
  induction 1 as [ | r y Hy | r1 r2 s1 s2 H1 IH1 H2 IH2 | r1 r2 s0 H0 IH0
                 | r1 r2 s0 H0 IH0 | r | r s1 s2 H1 IH1 H2 IH2
                 | r s1 s2 H1 IH1 H2 IH2 | r | r s0 H0 IH0 ];
    intros s E; try discriminate.
  - injection E as -> <-. rewrite (deriv_class _ _ Hy). constructor.
  - simpl. apply mk_alt_lang. destruct s1 as [|c s1]; simpl in E.
    + apply lang_alt_r.
      assert (N : nullable r1 = true) by (apply nullable_lang; exact H1).
      rewrite N. apply IH2. exact E.
    + injection E as -> <-. apply lang_alt_l. apply mk_seq_lang.
      constructor; [apply IH1; reflexivity | exact H2].
  - simpl. apply mk_alt_lang. apply lang_alt_l. apply IH0. exact E.
  - simpl. apply mk_alt_lang. apply lang_alt_r. apply IH0. exact E.
  - destruct s1 as [|c s1]; simpl in E.
    + apply IH2. exact E.
    + injection E as -> <-. simpl. apply mk_seq_lang.
      constructor; [apply IH1; reflexivity | exact H2].
  - destruct s1 as [|c s1]; simpl in E.
    + apply (IH2 s E).
    + injection E as -> <-. simpl. apply mk_seq_lang.
      constructor; [apply IH1; reflexivity | exact H2].
  - simpl. apply IH0. exact E.
Qed.

(** [run] finds a prefix in the language that ends where [$] holds. *)
Lemma run_lang (ml : bool) (s : string) (r : regex) :
  run ic ml r s = true
  <-> exists p q, s = (p ++ q)%string /\ lang ic r p /\ at_end ml q = true.
Proof.
  revert r; induction s as [|x s IH]; intros r.
  - simpl. rewrite orb_false_r, andb_true_r. rewrite nullable_lang. split.
    + intros H. exists EmptyString, EmptyString. auto.
    + intros [p [q [E [H _]]]]. symmetry in E.
      apply append_eq_empty in E. destruct E as [-> _]. exact H.
  - cbn [run]. rewrite orb_true_iff, andb_true_iff, IH, nullable_lang. split.
    + intros [[H1 H2]|[p [q [-> [H1 H2]]]]].
      * exists EmptyString, (String x s). auto.
      * exists (String x p), q. split; [reflexivity|].
        split; [apply deriv_sound; exact H1 | exact H2].
    + intros [[|c p] [q [E [H1 H2]]]]; simpl in E.
      * left. subst q. auto.
      * injection E as <- ->. right. exists p, q.
        split; [reflexivity|]. split; [|exact H2].
        eapply deriv_complete; eauto.
Qed.

End Matcher.

Lemma one_line_suffix (p q : string) :
  PyStr.one_line (p ++ q)%string = true -> PyStr.one_line q = true.
Proof.
  induction p as [|c p IH]; simpl; [auto|].
  intros H. apply andb_prop in H. destruct H as [_ H]. auto.
Qed.

(** On a string without line feed, [p.match(s)] holds exactly when the
    whole string is in the language of the body of [p]. *)
Lemma match_lang (p : pattern) (s : string) :
  PyStr.one_line s = true ->
  (match_ p s = true <-> lang (ignorecase p) (body p) s).
Proof.
  intros Hs. unfold match_. rewrite run_lang. split.
  - intros [a [b [-> [H1 H2]]]].
    apply one_line_suffix in Hs.
    destruct b as [|c b]; [rewrite append_empty_r; exact H1|].
    simpl in Hs, H2. destruct (Ascii.eqb c PyStr.newline); discriminate.
  - intros H. exists s, EmptyString.
    rewrite append_empty_r. auto.
Qed.

(** On a line of a text, [is_heading] says that the stripped line is, from
    end to end, in the language of one of the two rules followed by white
    space. *)
Lemma is_heading_lang (text line : string) :
  In line (PyStr.split_lines text) ->
  (is_heading line = true
   <-> lang true (Seq chapter_rule (Star Space)) (PyStr.strip line)
       \/ lang true (Seq part_rule (Star Space)) (PyStr.strip line)).
Proof.
  intros Hl.
  assert (H1 : PyStr.one_line (PyStr.strip line) = true)
    by (eapply strip_one_line, split_lines_one_line; eauto).
  unfold is_heading, chapter_patterns. cbn [existsb].
  rewrite orb_false_r, orb_true_iff.
  rewrite !(match_lang _ _ H1). reflexivity.
Qed.

(** ** Chains of chapters *)

Lemma contiguous_app (a b e : Z) (cs : list chapter) (c : chapter) :
  contiguous a cs b -> start_line c = b -> end_line c + 1 = e ->
  contiguous a (cs ++ [c]) e.
Proof.
  revert a; induction cs as [|d cs IH]; simpl; intros a H Hs He.
  - subst; auto.
  - destruct H as [Hd Hrest]; split; auto.
Qed.

Lemma filter_all {A : Type} (f : A -> bool) (l : list A) :
  Forall (fun x => f x = true) l -> filter f l = l.
Proof.
  induction 1 as [|x l Hx _ IH]; simpl; [reflexivity|].
  rewrite Hx, IH. reflexivity.
Qed.

(** The filter removes an [empty_sentinel] at the head and nothing else. *)
Lemma sentinel_first_filter (cs : list chapter) :
  sentinel_first cs ->
  cs = filter nonempty_range cs
  \/ cs = empty_sentinel :: filter nonempty_range cs.
Proof.
  intros [H|[cs' [-> H]]].
  - left. symmetry. apply filter_all. exact H.
  - right. simpl. rewrite (filter_all _ _ H). reflexivity.
Qed.

Lemma sentinel_first_app (cs : list chapter) (c : chapter) :
  sentinel_first cs -> nonempty_range c = true -> sentinel_first (cs ++ [c]).
Proof.
  intros [H|[cs' [-> H]]] Hc.
  - left. apply Forall_app; split; auto.
  - right. exists (cs' ++ [c]). split; [reflexivity|].
    apply Forall_app; split; auto.
Qed.

Lemma contiguous_filter (b : Z) (cs : list chapter) :
  contiguous 0 cs b -> sentinel_first cs ->
  contiguous 0 (filter nonempty_range cs) b.
Proof.
  intros H Hs.
  destruct (sentinel_first_filter cs Hs) as [E|E].
  - rewrite <- E. exact H.
  - rewrite E in H. destruct H as [_ H]. exact H.
Qed.

Lemma contiguous_adjacent (a b : Z) (cs : list chapter) (i : nat)
    (c d : chapter) :
  contiguous a cs b ->
  nth_error cs i = Some c -> nth_error cs (S i) = Some d ->
  start_line d = end_line c + 1.
Proof.
  revert a i; induction cs as [|x cs IH]; intros a i H Hc Hd.
  - destruct i; discriminate.
  - destruct H as [_ Hrest]. destruct i as [|i].
    + simpl in Hc, Hd. injection Hc as ->.
      destruct cs as [|y cs]; [discriminate|].
      injection Hd as ->. destruct Hrest as [Hy _]. exact Hy.
    + simpl in Hc. change (nth_error cs (S i) = Some d) in Hd.
      eapply IH; eauto.
Qed.

Lemma contiguous_last (a b : Z) (cs : list chapter) (c0 : chapter) :
  contiguous a cs b -> cs <> [] -> end_line (last cs c0) + 1 = b.
Proof.
  revert a; induction cs as [|x cs IH]; intros a H Hne; [congruence|].
  destruct H as [_ Hrest]. destruct cs as [|y cs].
  - simpl in *. exact Hrest.
  - change (last (x :: y :: cs) c0) with (last (y :: cs) c0).
    eapply IH; [exact Hrest | discriminate].
Qed.

(** ** The scan, for any list of patterns that match no empty line *)

Lemma try_patterns_cases (qs : list pattern) (i : Z) (line : string)
    (st : scan) :
  (try_patterns qs i line st = st
   /\ forallb (fun p => negb (match_ p (PyStr.strip line))) qs = true)
  \/ (try_patterns qs i line st
      = Scan (close_chapter st (i - 1)) (PyStr.strip line) i
      /\ exists p, In p qs /\ match_ p (PyStr.strip line) = true).
Proof.
  induction qs as [|q qs IH]; simpl.
  - left; auto.
  - destruct (match_ q (PyStr.strip line)) eqn:E.
    + right; split; [reflexivity|]. exists q; auto.
    + destruct IH as [[H1 H2]|[H1 [p [Hp Hm]]]].
      * left; simpl; auto.
      * right; split; [exact H1|]. exists p; auto.
Qed.

Section Scan.

Variable ps : list pattern.
Hypothesis match_truthy :
  forall p s, In p ps -> match_ p s = true -> PyStr.truthy s = true.

Lemma try_patterns_inv (i : Z) (line : string) (st : scan) :
  0 <= i -> scan_inv i st -> scan_inv (i + 1) (try_patterns ps i line st).
Proof.
  intros Hi [Ht Hs Hc Hf].
  destruct (try_patterns_cases ps i line st) as [[-> _]|[-> [p [Hp Hm]]]].
  - constructor; auto. right.
    destruct Hs as [[-> ->]|Hs]; simpl; lia.
  - constructor; simpl.
    + eapply match_truthy; eauto.
    + right; lia.
    + unfold close_chapter. rewrite Ht.
      eapply contiguous_app; eauto; simpl; lia.
    + destruct Hs as [[-> ->]|Hs].
      * right. exists []. split; [reflexivity | constructor].
      * unfold close_chapter. rewrite Ht.
        apply sentinel_first_app; [exact Hf|].
        unfold nonempty_range; simpl. rewrite Z.geb_leb. apply Z.leb_le. lia.
Qed.

Lemma scan_lines_inv (lines : list string) (i : Z) (st : scan) :
  0 <= i -> scan_inv i st ->
  scan_inv (i + Z.of_nat (List.length lines)) (scan_lines ps i lines st).
Proof.
  revert i st; induction lines as [|l ls IH]; intros i st Hi Hinv.
  - simpl. rewrite Z.add_0_r. exact Hinv.
  - cbn [scan_lines List.length].
    replace (i + Z.of_nat (S (List.length ls)))
      with ((i + 1) + Z.of_nat (List.length ls)) by lia.
    apply IH; [lia|]. apply try_patterns_inv; auto.
Qed.

Lemma scan_inv_init : scan_inv 0 (Scan [] sentinel_title 0).
Proof.
  constructor; simpl; auto. left. constructor.
Qed.

(** The list before the filter: a chain over all the lines in which only a
    leading [empty_sentinel] has an empty range, and which ends with a
    chapter of non-empty range. *)
Lemma scan_chapters_shape (text : string) :
  contiguous 0 (scan_chapters ps text)
    (Z.of_nat (List.length (PyStr.split_lines text)))
  /\ sentinel_first (scan_chapters ps text)
  /\ exists cs c, scan_chapters ps text = cs ++ [c]
                  /\ nonempty_range c = true.
Proof.
  unfold scan_chapters.
  set (lines := PyStr.split_lines text).
  set (n := Z.of_nat (List.length lines)).
  set (st := scan_lines ps 0 lines (Scan [] sentinel_title 0)).
  pose proof (split_lines_length text) as Hlen. fold lines in Hlen.
  pose proof (scan_lines_inv lines 0 _ (Z.le_refl 0) scan_inv_init) as Hinv.
  fold st in Hinv. simpl in Hinv. fold n in Hinv.
  destruct Hinv as [Ht Hs Hc Hf].
  assert (Hle : current_chapter_start_index st <= n - 1).
  { destruct Hs as [[E _]|Hs]; unfold n in *; lia. }
  assert (Hne : nonempty_range
                  (Chapter (PyStr.strip (current_chapter_title st))
                           (current_chapter_start_index st) (n - 1)) = true).
  { unfold nonempty_range; simpl. rewrite Z.geb_leb. apply Z.leb_le.
    exact Hle. }
  unfold close_chapter. rewrite Ht.
  split; [|split].
  - eapply contiguous_app; eauto; simpl; lia.
  - apply sentinel_first_app; auto.
  - eauto.
Qed.

Lemma find_chapters_with_contiguous (text : string) :
  find_chapters_with ps text <> []
  /\ contiguous 0 (find_chapters_with ps text)
       (Z.of_nat (List.length (PyStr.split_lines text))).
Proof.
  unfold find_chapters_with.
  destruct (scan_chapters_shape text) as [Hch [Hf [cs [c [E Hc]]]]].
  split.
  - rewrite E, filter_app. simpl. rewrite Hc.
    intros H. apply app_eq_nil in H. destruct H; discriminate.
  - apply contiguous_filter; auto.
Qed.

End Scan.

Lemma scan_lines_no_heading (qs : list pattern) (lines : list string)
    (i : Z) (st : scan) :
  Forall (fun l => forallb (fun p => negb (match_ p (PyStr.strip l))) qs
                   = true) lines ->
  scan_lines qs i lines st = st.
Proof.
  revert i st; induction lines as [|l ls IH]; intros i st H; [reflexivity|].
  inversion H as [|? ? Hl Hls]; subst. simpl.
  destruct (try_patterns_cases qs i l st) as [[-> _]|[_ [p [Hp Hm]]]].
  - apply IH; exact Hls.
  - rewrite forallb_forall in Hl. specialize (Hl p Hp).
    rewrite Hm in Hl. discriminate.
Qed.

(** Neither pattern matches the empty line. *)
Lemma chapter_patterns_truthy (p : pattern) (s : string) :
  In p chapter_patterns -> match_ p s = true -> PyStr.truthy s = true.
Proof.
  intros Hp Hm. destruct s; [|reflexivity].
  simpl in Hp. destruct Hp as [<-|[<-|[]]]; vm_compute in Hm; discriminate.
Qed.

(** ** Chapters once recorded stay *)

Lemma close_chapter_grows (st : scan) (last : Z) :
  exists ext, close_chapter st last = chapters st ++ ext.
Proof.
  unfold close_chapter. destruct (PyStr.truthy (current_chapter_title st)).
  - eauto.
  - exists []. rewrite app_nil_r. reflexivity.
Qed.

Lemma try_patterns_grows (qs : list pattern) (i : Z) (line : string)
    (st : scan) :
  exists ext, chapters (try_patterns qs i line st) = chapters st ++ ext.
Proof.
  destruct (try_patterns_cases qs i line st) as [[-> _]|[-> _]].
  - exists []. rewrite app_nil_r. reflexivity.
  - simpl. apply close_chapter_grows.
Qed.

Lemma scan_lines_grows (qs : list pattern) (lines : list string) (i : Z)
    (st : scan) :
  exists ext, chapters (scan_lines qs i lines st) = chapters st ++ ext.
Proof.
  revert i st; induction lines as [|l ls IH]; intros i st; simpl.
  - exists []. rewrite app_nil_r. reflexivity.
  - destruct (IH (i + 1) (try_patterns qs i l st)) as [e1 ->].
    destruct (try_patterns_grows qs i l st) as [e2 ->].
    exists (e2 ++ e1). rewrite app_assoc. reflexivity.
Qed.

Lemma scan_lines_app (qs : list pattern) (a b : list string) (i : Z)
    (st : scan) :
  scan_lines qs i (a ++ b) st
  = scan_lines qs (i + Z.of_nat (List.length a)) b (scan_lines qs i a st).
Proof.
  revert i st; induction a as [|l a IH]; intros i st.
  - simpl. rewrite Z.add_0_r. reflexivity.
  - cbn [app scan_lines List.length]. rewrite IH. f_equal. lia.
Qed.

(** On a heading the inner loop closes the current chapter and opens one
    titled with the stripped line, which is not empty. *)
Lemma try_patterns_heading (i : Z) (line : string) (st : scan) :
  is_heading line = true ->
  try_patterns chapter_patterns i line st
  = Scan (close_chapter st (i - 1)) (PyStr.strip line) i
  /\ PyStr.truthy (PyStr.strip line) = true.
Proof.
  intros H. unfold is_heading in H. apply existsb_exists in H.
  destruct H as [p [Hp Hm]].
  split; [|eapply chapter_patterns_truthy; eauto].
  destruct (try_patterns_cases chapter_patterns i line st)
    as [[_ Hn]|[-> _]]; [|reflexivity].
  rewrite forallb_forall in Hn. specialize (Hn p Hp).
  rewrite Hm in Hn. discriminate.
Qed.

(** A heading on line [n] with a heading on line [n + 1] is returned as
    the chapter of the single line [n]. *)
Lemma heading_pair_kept (text : string) (pre : list string) (l1 l2 : string)
    (post : list string) :
  PyStr.split_lines text = pre ++ l1 :: l2 :: post ->
  is_heading l1 = true -> is_heading l2 = true ->
  In (Chapter (PyStr.strip l1) (Z.of_nat (List.length pre))
              (Z.of_nat (List.length pre)))
     (find_chapters text).
Proof.
  intros Hsplit H1 H2.
  set (n := Z.of_nat (List.length pre)).
  unfold find_chapters, find_chapters_with. apply filter_In. split.
  - unfold scan_chapters. rewrite Hsplit.
    rewrite scan_lines_app. cbn [scan_lines]. fold n.
    set (st0 := scan_lines chapter_patterns 0 pre (Scan [] sentinel_title 0)).
    destruct (try_patterns_heading (0 + n) l1 st0 H1) as [-> Ht].
    destruct (try_patterns_heading (0 + n + 1) l2
                (Scan (close_chapter st0 (0 + n - 1)) (PyStr.strip l1)
                      (0 + n)) H2) as [-> _].
    match goal with
    | |- In _ (close_chapter (scan_lines _ _ _ ?st) ?k) =>
        destruct (scan_lines_grows chapter_patterns post (0 + n + 1 + 1) st)
          as [e1 E1];
        destruct (close_chapter_grows
                    (scan_lines chapter_patterns (0 + n + 1 + 1) post st) k)
          as [e2 E2]
    end.
    rewrite E2, E1. cbn [chapters].
    apply in_or_app. left. apply in_or_app. left.
    unfold close_chapter at 1. cbn [current_chapter_title
                                      current_chapter_start_index chapters].
    rewrite Ht. apply in_or_app. right. left.
    rewrite strip_idempotent. f_equal; lia.
  - unfold nonempty_range. simpl. rewrite Z.geb_leb. apply Z.leb_le. lia.
Qed.

(** ** The chapter finder on the sample inputs *)

Example strip_sample :
  PyStr.strip ("  Chapter 1 " ++ nl)%string = "Chapter 1"%string.
Proof. reflexivity. Qed.

Example split_lines_sample :
  PyStr.split_lines text_heading_pair
  = ["Chapter 1"; "Chapter 2"; "body"]%string.
Proof. reflexivity. Qed.

Example split_lines_trailing :
  PyStr.split_lines ("a" ++ nl)%string = ["a"; ""]%string.
Proof. reflexivity. Qed.

Example headings_sample :
  map is_heading
      ["Chapter 1"; "chapter  xii "; "3. The End"; "3.The End"; "Part One";
       "part"; "Chapter"; "hello world"; "body"; "foo"; ""; "-- x"]%string
  = [true; true; true; false; true; false; false; true; false; false; false;
     false].
Proof. vm_compute. reflexivity. Qed.

(** C5. For the text ["Chapter 1\nfoo\nChapter 2\nbar"], [find_chapters]
    returns exactly two chapters, {"Chapter 1", 0, 1} and then
    {"Chapter 2", 2, 3}. *)
Theorem find_chapters_two_chapters :
  find_chapters text_two_chapters
  = [Chapter "Chapter 1" 0 1; Chapter "Chapter 2" 2 3].
Proof. vm_compute. reflexivity. Qed.

(** C1, what the code does. For ["Chapter 1\nChapter 2\nbody"],
    [find_chapters] returns {"Chapter 1", 0, 0} and {"Chapter 2", 1, 2}, not
    {"Chapter 2", 1, 2} alone: the chapter made of its heading line only has
    [end_line = start_line] and passes the filter [end_line >= start_line].
    For every text the filter removes nothing but the empty sentinel
    chapter {"Introduction/Beginning", 0, -1}, recorded when line 0 is a
    heading. *)
Theorem find_chapters_heading_pair :
  find_chapters text_heading_pair
  = [Chapter "Chapter 1" 0 0; Chapter "Chapter 2" 1 2]
  /\ find_chapters text_heading_pair <> [Chapter "Chapter 2" 1 2]
  /\ forall text,
       scan_chapters chapter_patterns text = find_chapters text
       \/ scan_chapters chapter_patterns text
          = empty_sentinel :: find_chapters text.
Proof.
  split; [vm_compute; reflexivity|].
  split; [vm_compute; discriminate|].
  intros text. unfold find_chapters, find_chapters_with.
  apply sentinel_first_filter.
  apply (scan_chapters_shape chapter_patterns chapter_patterns_truthy text).
Qed.

(** C4. For every text in which no line is a heading, [find_chapters]
    returns exactly one chapter, titled "Introduction/Beginning", from
    line 0 to the last line index. *)
Theorem find_chapters_no_heading (text : string) :
  (forall line, In line (PyStr.split_lines text) -> is_heading line = false) ->
  find_chapters text
  = [Chapter "Introduction/Beginning" 0
             (Z.of_nat (List.length (PyStr.split_lines text)) - 1)].
Proof.
  intros H. unfold find_chapters, find_chapters_with, scan_chapters.
  rewrite scan_lines_no_heading.
  - unfold close_chapter; simpl. unfold nonempty_range; simpl.
    pose proof (split_lines_length text) as Hlen.
    destruct (Z.geb_spec (Z.of_nat (List.length (PyStr.split_lines text)) - 1)
                         0) as [_|Hlt]; [reflexivity | lia].
  - apply Forall_forall. intros l Hl. specialize (H l Hl).
    unfold is_heading in H.
    apply forallb_forall. intros p Hp.
    destruct (match_ p (PyStr.strip l)) eqn:E; [|reflexivity].
    assert (Hex : existsb (fun p => match_ p (PyStr.strip l)) chapter_patterns
                  = true) by (apply existsb_exists; eauto).
    congruence.
Qed.

Lemma find_chapters_no_heading_witness :
  (forall line, In line (PyStr.split_lines text_plain) ->
                is_heading line = false)
  /\ find_chapters text_plain = [Chapter "Introduction/Beginning" 0 1].
Proof.
  assert (H : forall line, In line (PyStr.split_lines text_plain) ->
                           is_heading line = false).
  { intros line [<-|[<-|[]]]; reflexivity. }
  split; [exact H | exact (find_chapters_no_heading text_plain H)].
Defined.

(** C9. For every text, every chapter returned by [find_chapters] has
    [end_line >= start_line]. *)
Theorem find_chapters_range (text : string) (c : chapter) :
  In c (find_chapters text) -> end_line c >= start_line c.
Proof.
  unfold find_chapters, find_chapters_with. intros H.
  apply filter_In in H. destruct H as [_ H].
  unfold nonempty_range in H. rewrite Z.geb_leb in H.
  apply Z.leb_le in H. lia.
Qed.

Lemma find_chapters_range_witness :
  In (Chapter "Chapter 1" 0 1) (find_chapters text_two_chapters)
  /\ end_line (Chapter "Chapter 1" 0 1) >= start_line (Chapter "Chapter 1" 0 1).
Proof.
  assert (H : In (Chapter "Chapter 1" 0 1) (find_chapters text_two_chapters)).
  { vm_compute. left. reflexivity. }
  split; [exact H | exact (find_chapters_range text_two_chapters _ H)].
Defined.

(** C10. For every text, the empty one included, [find_chapters] returns a
    non-empty list whose chapters partition the lines: the first starts at
    line 0, each next one starts on the line after the end of the one
    before, and the last ends on the last line index. *)
Theorem find_chapters_partition (text : string) :
  let cs := find_chapters text in
  let n := Z.of_nat (List.length (PyStr.split_lines text)) in
  cs <> []
  /\ contiguous 0 cs n
  /\ (exists c rest, cs = c :: rest /\ start_line c = 0)
  /\ (forall i c d, nth_error cs i = Some c -> nth_error cs (S i) = Some d ->
                    start_line d = end_line c + 1)
  /\ end_line (last cs empty_sentinel) = n - 1.
Proof.
  intros cs n.
  destruct (find_chapters_with_contiguous chapter_patterns
              chapter_patterns_truthy text) as [Hne Hch].
  fold (find_chapters text) in Hne, Hch. fold cs in Hne, Hch. fold n in Hch.
  repeat split; auto.
  - destruct cs as [|c rest]; [congruence|].
    exists c, rest. destruct Hch as [Hs _]. auto.
  - intros i c d Hc Hd. eapply contiguous_adjacent; eauto.
  - pose proof (contiguous_last 0 n cs empty_sentinel Hch Hne). lia.
Qed.

Example find_chapters_empty_text :
  find_chapters "" = [Chapter "Introduction/Beginning" 0 0].
Proof. vm_compute. reflexivity. Qed.

(** ** The AI gateway *)

(** A list object has no attribute [push]: the lookup raises before any
    method of the runtime is called. *)
Lemma call_list_method_push (rt : runtime) (l args : list value) :
  call_list_method rt "push" l args = Raise (attribute_error "list" "push").
Proof. reflexivity. Qed.

Lemma has_reply_envelope (text : value) : has_reply (envelope text) = Return true.
Proof. reflexivity. Qed.

Lemma reply_text_envelope (text : value) :
  reply_text (envelope text) = Return text.
Proof. reflexivity. Qed.

(** The body of the [try] on a reply of the expected shape: the text of the
    reply comes back as it is without a schema, and through [json.loads],
    unchecked, with one. *)
Lemma request_envelope (rt : runtime) (apiUrl body : string)
    (payload schema response text : value) (w : list event) :
  let options := request_options body in
  json_dumps rt payload = Return body ->
  fetch rt apiUrl options = Return response ->
  response_json rt response = Return (envelope text) ->
  request rt apiUrl payload schema w
  = (if truthy schema then json_loads rt text else Return text,
     w ++ [Fetch apiUrl options]).
Proof.
  intros options Hd Hf Hj.
  unfold request, bind, lift, emit, ret. rewrite Hd. fold options.
  rewrite Hf, Hj, has_reply_envelope, reply_text_envelope.
  destruct (truthy schema); reflexivity.
Qed.

(** A failure of the request is reported once and answered with [None],
    when the call of [st.error] returns. *)
Lemma try_except_transport_failure (rt : runtime) (apiUrl body : string)
    (payload schema : value) (e : exn) (w : list event) :
  let options := request_options body in
  json_dumps rt payload = Return body ->
  fetch rt apiUrl options = Raise e ->
  is_exception e = true ->
  st_error_outcome rt ("An error occurred while calling the AI model: "
                       ++ exn_message e)%string = Return tt ->
  try_except (request rt apiUrl payload schema) (request_failed rt) w
  = (Return VNone,
     w ++ [Fetch apiUrl options]
       ++ [StError ("An error occurred while calling the AI model: "
                    ++ exn_message e)%string]).
Proof.
  intros options Hd Hf He Hs.
  unfold try_except, request, bind, lift, emit, ret. rewrite Hd. fold options.
  rewrite Hf, He. unfold request_failed, st_error, bind, lift, emit, ret.
  rewrite Hs, <- app_assoc. reflexivity.
Qed.

(** What a call of the gateway does, as an equation to rewrite with. *)
Lemma call_gemini_api_body (rt : runtime) (prompt : string) (schema : value)
    (w : list event) :
  call_gemini_api rt prompt schema w
  = (Raise (attribute_error "list" "push"), w ++ [GatewayCall prompt schema]).
Proof. reflexivity. Qed.

(** C2, what the code does. For every prompt and schema, [call_gemini_api]
    raises [AttributeError] to its caller from [chatHistory.push], ahead of
    the [try]: no request is made, no notification is shown and nothing is
    returned. *)
Theorem call_gemini_api_raises (rt : runtime) (prompt : string)
    (schema : value) (w : list event) :
  call_gemini_api rt prompt schema w
  = (Raise (attribute_error "list" "push"), w ++ [GatewayCall prompt schema])
  /\ forall e, fst (call_gemini_api rt prompt schema w) <> Return e.
Proof. split; [reflexivity | discriminate]. Qed.

(** C8, what the code does. With a service that answers every request with
    a reply of the expected shape carrying "hello", the body of the [try]
    would return "hello", but [call_gemini_api] raises [AttributeError]
    before it, with and without a schema. *)
Theorem call_gemini_api_reply_lost :
  let rt := reply_runtime (VStr "hello") in
  (forall payload,
     fst (request rt api_endpoint payload VNone []) = Return (VStr "hello"))
  /\ fst (call_gemini_api rt "hi" VNone [])
     = Raise (attribute_error "list" "push")
  /\ fst (call_gemini_api rt "hi" quiz_schema [])
     = Raise (attribute_error "list" "push").
Proof.
  split; [|split]; reflexivity.
Qed.

(** ** Summary and quiz *)

Example summary_head_default :
  summary_head float_0_3
  = Return ("Please summarize the following book text in a concise manner, aiming for about 30% of the original length. Focus on the main plot, key characters, and significant events:"
            ++ nl ++ nl)%string.
Proof. vm_compute. reflexivity. Qed.

(** C6. The prompt of [summarize_book] is a head that does not depend on
    the text followed by a piece of the text that is a prefix of it of
    [min 8000 (len text)] characters; the prompt of [generate_book_quiz] is
    a fixed head, a prefix of the text segment of [min 2000 (len text)]
    characters and a fixed tail.  These prompts are the ones handed to
    [call_gemini_api]. *)
Theorem prompts_embed_bounded_text (rt : runtime) (text : string)
    (ratio : spec_float) (prompt : string) (w : list event) :
  summary_prompt text ratio = Return prompt ->
  PyStr.truthy text = true ->
  (exists head piece,
     summary_head ratio = Return head
     /\ prompt = (head ++ piece)%string
     /\ PyStr.startswith piece text = true
     /\ String.length piece = Nat.min 8000 (String.length text)
     /\ snd (summarize_book rt text ratio w)
        = w ++ [SpinnerEnter "Generating summary...";
                GatewayCall prompt VNone; SpinnerExit])
  /\ (exists piece,
        quiz_prompt text = (quiz_head ++ piece ++ quiz_tail)%string
        /\ PyStr.startswith piece text = true
        /\ String.length piece = Nat.min 2000 (String.length text)
        /\ snd (generate_book_quiz rt text w)
           = w ++ [SpinnerEnter "Generating quiz question...";
                   GatewayCall (quiz_prompt text) quiz_schema; SpinnerExit]).
Proof.
  intros Hp Ht. split.
  - unfold summary_prompt in Hp.
    destruct (summary_head ratio) as [head|e] eqn:Hh; simpl in Hp;
      [|discriminate].
    injection Hp as <-.
    exists head, (PyStr.slice_to 8000 text).
    repeat split.
    + apply slice_to_startswith.
    + apply slice_to_length.
    + unfold summarize_book, summary_prompt. rewrite Hh.
      unfold bind, lift, obind, with_spinner.
      rewrite call_gemini_api_body. rewrite <- !app_assoc. reflexivity.
  - exists (PyStr.slice_to 2000 text).
    repeat split.
    + apply slice_to_startswith.
    + apply slice_to_length.
    + unfold generate_book_quiz. rewrite Ht.
      unfold negb, bind, with_spinner.
      rewrite call_gemini_api_body. rewrite <- !app_assoc. reflexivity.
Qed.

Lemma prompts_embed_bounded_text_witness :
  let prompt :=
    ("Please summarize the following book text in a concise manner, aiming for about 30% of the original length. Focus on the main plot, key characters, and significant events:"
     ++ nl ++ nl ++ "abc")%string in
  summary_prompt "abc" float_0_3 = Return prompt
  /\ PyStr.truthy "abc" = true
  /\ snd (summarize_book (reply_runtime VNone) "abc" float_0_3 [])
     = [SpinnerEnter "Generating summary..."; GatewayCall prompt VNone;
        SpinnerExit].
Proof.
  intros prompt.
  assert (Hp : summary_prompt "abc" float_0_3 = Return prompt)
    by (vm_compute; reflexivity).
  assert (Ht : PyStr.truthy "abc" = true) by reflexivity.
  split; [exact Hp | split; [exact Ht|]].
  destruct (prompts_embed_bounded_text (reply_runtime VNone) "abc" float_0_3
              prompt [] Hp Ht) as [[head [piece [_ [_ [_ [_ H]]]]]] _].
  exact H.
Defined.

(** C7. For every call of [generate_book_quiz] with an empty text, the
    result is returned at once as a mapping with an "error" field, and the
    events are left as they were: [call_gemini_api] is not entered and no
    request is made. *)
Theorem generate_book_quiz_empty (rt : runtime) (text : string)
    (w : list event) :
  String.length text = 0%nat ->
  generate_book_quiz rt text w
  = (Return (VDict [("error",
                     VStr "Please provide text to generate a quiz.")]%string),
     w).
Proof.
  intros H. destruct text; [reflexivity | discriminate].
Qed.

Lemma generate_book_quiz_empty_witness :
  String.length "" = 0%nat
  /\ generate_book_quiz (reply_runtime VNone) "" []
     = (Return (VDict [("error",
                        VStr "Please provide text to generate a quiz.")]%string),
        []).
Proof.
  split; [reflexivity|].
  apply (generate_book_quiz_empty (reply_runtime VNone) "" []). reflexivity.
Defined.




(** * Further properties *)

(** ** The chapter list, described by its heading lines *)

Lemma try_patterns_no_heading (i : Z) (line : string) (st : scan) :
  is_heading line = false -> try_patterns chapter_patterns i line st = st.
Proof.
  intros H.
  destruct (try_patterns_cases chapter_patterns i line st)
    as [[E _]|[_ [p [Hp Hm]]]]; [exact E|].
  unfold is_heading in H.
  assert (Hex : existsb (fun p => match_ p (PyStr.strip line))
                        chapter_patterns = true)
    by (apply existsb_exists; eauto).
  congruence.
Qed.

(** The loop from line [i] on, with its final chapter, adds to the chapters
    already recorded one chapter for the current title and one per heading
    line still to come. *)
Lemma scan_lines_cut (lines : list string) (i m : Z) (st : scan) :
  PyStr.truthy (current_chapter_title st) = true ->
  close_chapter (scan_lines chapter_patterns i lines st) (m - 1)
  = chapters st
    ++ cut ((current_chapter_start_index st,
             PyStr.strip (current_chapter_title st))
            :: heading_lines i lines) m.
Proof.
  revert i st; induction lines as [|l ls IH]; intros i st Ht.
  - simpl. unfold close_chapter. rewrite Ht. reflexivity.
  - cbn [scan_lines heading_lines].
    destruct (is_heading l) eqn:Hl.
    + destruct (try_patterns_heading i l st Hl) as [-> Hs].
      rewrite IH by exact Hs.
      cbn [chapters current_chapter_title current_chapter_start_index].
      unfold close_chapter. rewrite Ht, strip_idempotent.
      rewrite <- app_assoc. reflexivity.
    + rewrite (try_patterns_no_heading i l st Hl). apply IH. exact Ht.
Qed.

Lemma increasing_weaken (lo lo' n : Z) (hs : list (Z * string)) :
  lo' <= lo -> increasing lo hs n -> increasing lo' hs n.
Proof.
  destruct hs as [|[j t] rest]; simpl; [auto|].
  intros Hle [Hj Hr]. split; [lia | exact Hr].
Qed.

Lemma heading_lines_increasing (lines : list string) (i : Z) :
  increasing i (heading_lines i lines) (i + Z.of_nat (List.length lines)).
Proof.
  revert i; induction lines as [|l ls IH]; intros i; [exact I|].
  cbn [heading_lines List.length].
  replace (i + Z.of_nat (S (List.length ls)))
    with ((i + 1) + Z.of_nat (List.length ls)) by lia.
  destruct (is_heading l).
  - split; [lia | apply IH].
  - apply increasing_weaken with (lo := i + 1); [lia | apply IH].
Qed.

Lemma cut_nonempty (hs : list (Z * string)) (i n : Z) (t : string) :
  i < n -> increasing (i + 1) hs n ->
  Forall (fun c => nonempty_range c = true) (cut ((i, t) :: hs) n).
Proof.
  revert i t; induction hs as [|[j u] rest IH]; intros i t Hi Hinc.
  - constructor; [|constructor].
    unfold nonempty_range; simpl. rewrite Z.geb_leb. apply Z.leb_le. lia.
  - destruct Hinc as [Hj Hr].
    change (cut ((i, t) :: (j, u) :: rest) n)
      with (Chapter t i (j - 1) :: cut ((j, u) :: rest) n).
    constructor.
    + unfold nonempty_range; simpl. rewrite Z.geb_leb. apply Z.leb_le. lia.
    + apply IH; [lia | exact Hr].
Qed.

Lemma scan_chapters_cut (text : string) :
  scan_chapters chapter_patterns text
  = cut ((0, sentinel_title) :: heading_lines 0 (PyStr.split_lines text))
        (Z.of_nat (List.length (PyStr.split_lines text))).
Proof.
  unfold scan_chapters.
  rewrite (scan_lines_cut (PyStr.split_lines text) 0 _
             (Scan [] sentinel_title 0) eq_refl).
  reflexivity.
Qed.

Lemma find_chapters_cut (text : string) :
  find_chapters text
  = cut (chapter_starts (PyStr.split_lines text))
        (Z.of_nat (List.length (PyStr.split_lines text))).
Proof.
  unfold find_chapters, find_chapters_with. rewrite scan_chapters_cut.
  pose proof (split_lines_length text) as Hlen.
  destruct (PyStr.split_lines text) as [|l ls] eqn:E; [simpl in Hlen; lia|].
  set (n := Z.of_nat (List.length (l :: ls))).
  assert (Hn : 0 < n) by (unfold n; simpl; lia).
  assert (Hinc : increasing (0 + 1) (heading_lines (0 + 1) ls) n).
  { pose proof (heading_lines_increasing ls (0 + 1)) as H.
    replace (0 + 1 + Z.of_nat (List.length ls)) with n in H
      by (unfold n; cbn [List.length]; lia).
    exact H. }
  unfold chapter_starts. cbn [heading_lines].
  destruct (is_heading l).
  - change (cut ((0, sentinel_title) :: (0, PyStr.strip l)
                 :: heading_lines (0 + 1) ls) n)
      with (Chapter sentinel_title 0 (0 - 1)
            :: cut ((0, PyStr.strip l) :: heading_lines (0 + 1) ls) n).
    cbn [filter]. unfold nonempty_range at 1. simpl Z.geb.
    apply filter_all. apply cut_nonempty; [exact Hn | exact Hinc].
  - apply filter_all. apply cut_nonempty; [exact Hn | exact Hinc].
Qed.

(** X1. [find_chapters] returns one chapter per heading line, titled with
    the stripped line and running up to the line before the next heading
    (the last one up to the last line), after a chapter titled
    "Introduction/Beginning" from line 0 when line 0 is no heading. *)
Theorem find_chapters_by_headings (text : string) :
  find_chapters text
  = cut (chapter_starts (PyStr.split_lines text))
        (Z.of_nat (List.length (PyStr.split_lines text))).
Proof. exact (find_chapters_cut text). Qed.

Example find_chapters_by_headings_sample :
  chapter_starts (PyStr.split_lines text_two_chapters)
  = [(0, "Chapter 1"%string); (2, "Chapter 2"%string)].
Proof. vm_compute. reflexivity. Qed.

(** ** The texts of the chapters *)

Lemma join_split_lines (s : string) : join nl (PyStr.split_lines s) = s.
Proof.
  induction s as [|c s IH]; [reflexivity|].
  cbn [PyStr.split_lines].
  pose proof (split_lines_not_nil s) as Hne.
  destruct (Ascii.eqb c PyStr.newline) eqn:Ec.
  - apply Ascii.eqb_eq in Ec. subst c.
    destruct (PyStr.split_lines s) as [|l ls]; [congruence|].
    change (join nl (EmptyString :: l :: ls))
      with (String PyStr.newline (join nl (l :: ls))).
    rewrite IH. reflexivity.
  - destruct (PyStr.split_lines s) as [|l ls]; [congruence|].
    rewrite <- IH. destruct ls; reflexivity.
Qed.

Lemma string_app_assoc (a b c : string) :
  ((a ++ b) ++ c)%string = (a ++ (b ++ c))%string.
Proof. induction a as [|x a IH]; simpl; congruence. Qed.

Lemma join_app (sep : string) (l1 l2 : list string) :
  l1 <> [] -> l2 <> [] ->
  join sep (l1 ++ l2) = (join sep l1 ++ sep ++ join sep l2)%string.
Proof.
  intros H1 H2. induction l1 as [|x l1 IH]; [congruence|].
  destruct l1 as [|y l1].
  - simpl. destruct l2; [congruence | reflexivity].
  - change (join sep ((x :: y :: l1) ++ l2))
      with (x ++ sep ++ join sep ((y :: l1) ++ l2))%string.
    rewrite IH by discriminate.
    change (join sep (x :: y :: l1))
      with (x ++ sep ++ join sep (y :: l1))%string.
    rewrite !string_app_assoc. reflexivity.
Qed.

Lemma join_concat (sep : string) (segs : list (list string)) :
  Forall (fun seg => seg <> []) segs ->
  join sep (List.concat segs) = join sep (map (join sep) segs).
Proof.
  induction 1 as [|seg segs Hseg Hall IH]; [reflexivity|].
  destruct segs as [|seg' segs].
  - simpl. rewrite app_nil_r. reflexivity.
  - cbn [List.concat map]. cbn [List.concat map] in IH.
    rewrite join_app; [| exact Hseg |].
    + rewrite IH. reflexivity.
    + inversion Hall as [|? ? Hs _]; subst.
      destruct seg'; [congruence | discriminate].
Qed.

Lemma slice_index_id (n i : Z) : 0 <= i <= n -> slice_index n i = i.
Proof.
  intros H. unfold slice_index. cbv zeta.
  destruct (Z.ltb_spec i 0) as [H0|H0]; [lia|].
  destruct (Z.ltb_spec i 0) as [H1|H1]; [lia|].
  destruct (Z.ltb_spec n i); [lia | reflexivity].
Qed.

Lemma firstn_skipn_app {A : Type} (p q : nat) (l : list A) :
  firstn p l ++ firstn q (skipn p l) = firstn (p + q) l.
Proof.
  revert l; induction p as [|p IH]; intros l; [reflexivity|].
  destruct l as [|x l]; simpl.
  - rewrite firstn_nil. reflexivity.
  - rewrite IH. reflexivity.
Qed.

Lemma list_slice_app {A : Type} (l : list A) (a m b : Z) :
  0 <= a <= m -> m <= b <= Z.of_nat (List.length l) ->
  list_slice l a m ++ list_slice l m b = list_slice l a b.
Proof.
  intros H1 H2. unfold list_slice.
  rewrite !slice_index_id by lia.
  replace (Z.to_nat m) with (Z.to_nat (m - a) + Z.to_nat a)%nat by lia.
  rewrite <- skipn_skipn.
  replace (Z.to_nat (b - a)) with (Z.to_nat (m - a) + Z.to_nat (b - m))%nat
    by lia.
  apply firstn_skipn_app.
Qed.

Lemma list_slice_all {A : Type} (l : list A) :
  list_slice l 0 (Z.of_nat (List.length l)) = l.
Proof.
  unfold list_slice. rewrite !slice_index_id by lia.
  simpl. rewrite Z.sub_0_r, Nat2Z.id. apply firstn_all.
Qed.

Lemma list_slice_length {A : Type} (l : list A) (a b : Z) :
  0 <= a <= b -> b <= Z.of_nat (List.length l) ->
  Z.of_nat (List.length (list_slice l a b)) = b - a.
Proof.
  intros H1 H2. unfold list_slice. rewrite !slice_index_id by lia.
  rewrite length_firstn, length_skipn. lia.
Qed.

(** In a chain of chapters of non-empty range, every chapter lies between
    the ends of the chain. *)
Lemma contiguous_bounds (a b : Z) (cs : list chapter) :
  contiguous a cs b -> Forall (fun c => nonempty_range c = true) cs ->
  a <= b /\ forall c, In c cs -> a <= start_line c <= end_line c
                                  /\ end_line c < b.
Proof.
  revert a; induction cs as [|x cs IH]; intros a H Hall.
  - simpl in H. split; [lia | intros c []].
  - destruct H as [Hs Hrest]. inversion Hall as [|? ? Hx Hcs]; subst.
    unfold nonempty_range in Hx. rewrite Z.geb_leb in Hx.
    apply Z.leb_le in Hx.
    destruct (IH _ Hrest Hcs) as [Hle Hin].
    split; [lia|]. intros c [<-|Hc]; [lia|].
    specialize (Hin c Hc). lia.
Qed.

Lemma contiguous_concat (lines : list string) (a b : Z) (cs : list chapter) :
  contiguous a cs b -> Forall (fun c => nonempty_range c = true) cs ->
  0 <= a -> b <= Z.of_nat (List.length lines) ->
  List.concat (map (chapter_text_lines lines) cs) = list_slice lines a b
  /\ Forall (fun seg => seg <> []) (map (chapter_text_lines lines) cs).
Proof.
  revert a; induction cs as [|x cs IH]; intros a H Hall Ha Hb.
  - simpl in H. subst b. split; [|constructor].
    unfold list_slice. rewrite Z.sub_diag. reflexivity.
  - destruct H as [Hs Hrest]. inversion Hall as [|? ? Hx Hcs]; subst.
    unfold nonempty_range in Hx. rewrite Z.geb_leb in Hx.
    apply Z.leb_le in Hx.
    destruct (contiguous_bounds _ _ _ Hrest Hcs) as [Hle _].
    destruct (IH _ Hrest Hcs ltac:(lia) Hb) as [IH1 IH2].
    cbn [map List.concat]. rewrite IH1. unfold chapter_text_lines at 1.
    split.
    + apply list_slice_app; lia.
    + constructor; [|exact IH2].
      intros E. apply (f_equal (@List.length string)) in E.
      apply (f_equal Z.of_nat) in E.
      unfold chapter_text_lines in E.
      rewrite list_slice_length in E by lia. simpl in E. lia.
Qed.

Lemma find_chapters_nonempty_ranges (text : string) :
  Forall (fun c => nonempty_range c = true) (find_chapters text).
Proof.
  apply Forall_forall. intros c H.
  unfold find_chapters, find_chapters_with in H.
  apply filter_In in H. tauto.
Qed.

(** X2. The texts that the page shows for the chapters, one after the
    other and joined by line feeds, are the uploaded text: every line
    belongs to exactly one chapter and no character is lost. *)
Theorem chapter_texts_round_trip (text : string) :
  join nl (map (chapter_text (PyStr.split_lines text)) (find_chapters text))
  = text.
Proof.
  destruct (find_chapters_with_contiguous chapter_patterns
              chapter_patterns_truthy text) as [_ Hch].
  fold (find_chapters text) in Hch.
  destruct (contiguous_concat (PyStr.split_lines text) 0 _ _ Hch
              (find_chapters_nonempty_ranges text) (Z.le_refl 0)
              (Z.le_refl _)) as [Hc Hne].
  rewrite list_slice_all in Hc.
  unfold chapter_text.
  rewrite <- (map_map (chapter_text_lines (PyStr.split_lines text))
                      (join nl)).
  rewrite <- join_concat by exact Hne.
  rewrite Hc. apply join_split_lines.
Qed.

(** X3. The text shown for a chapter of the list has [end_line -
    start_line + 1] lines, at least one, and they are lines of the text. *)
Theorem chapter_text_lines_length (text : string) (c : chapter) :
  In c (find_chapters text) ->
  Z.of_nat (List.length (chapter_text_lines (PyStr.split_lines text) c))
  = end_line c - start_line c + 1
  /\ 0 <= start_line c <= end_line c
  /\ end_line c < Z.of_nat (List.length (PyStr.split_lines text)).
Proof.
  intros Hc.
  destruct (find_chapters_with_contiguous chapter_patterns
              chapter_patterns_truthy text) as [_ Hch].
  fold (find_chapters text) in Hch.
  destruct (contiguous_bounds _ _ _ Hch (find_chapters_nonempty_ranges text))
    as [_ Hb].
  specialize (Hb c Hc).
  split; [|lia].
  unfold chapter_text_lines. rewrite list_slice_length; lia.
Qed.

(** The selection by title finds the first chapter with that title. *)
Lemma select_chapter_first (a b : Z) (cs : list chapter) (c : chapter) :
  contiguous a cs b -> Forall (fun c => nonempty_range c = true) cs ->
  In c cs ->
  exists c', select_chapter cs (title c) = Some c'
             /\ In c' cs /\ title c' = title c
             /\ start_line c' <= start_line c.
Proof.
  revert a; induction cs as [|x cs IH]; intros a Hch Hall Hc; [destruct Hc|].
  unfold select_chapter. cbn [find].
  destruct (String.eqb (title x) (title c)) eqn:E.
  - exists x. apply String.eqb_eq in E.
    destruct (contiguous_bounds _ _ _ Hch Hall) as [_ Hb].
    pose proof (Hb c Hc) as Bc. destruct Hch as [Hs _].
    repeat split; auto; [left; reflexivity | lia].
  - destruct Hc as [->|Hc]; [rewrite String.eqb_refl in E; discriminate|].
    destruct Hch as [_ Hrest]. inversion Hall as [|? ? _ Hcs]; subst.
    destruct (IH _ Hrest Hcs Hc) as [c' [H1 [H2 [H3 H4]]]].
    exists c'. repeat split; auto. right. exact H2.
Qed.

(** X4. Selecting the title of a chapter of the list always finds a
    chapter, the first one with that title: it carries the same title and
    starts no later.  A chapter that repeats an earlier title is never the
    one selected. *)
Theorem select_chapter_by_title (text : string) (c : chapter) :
  In c (find_chapters text) ->
  exists c', select_chapter (find_chapters text) (title c) = Some c'
             /\ In c' (find_chapters text)
             /\ title c' = title c
             /\ start_line c' <= start_line c.
Proof.
  intros Hc.
  destruct (find_chapters_with_contiguous chapter_patterns
              chapter_patterns_truthy text) as [_ Hch].
  fold (find_chapters text) in Hch.
  exact (select_chapter_first _ _ _ c Hch
           (find_chapters_nonempty_ranges text) Hc).
Qed.

Example select_chapter_repeated_title :
  let text := ("Part 1" ++ nl ++ "one" ++ nl ++ "Part 1" ++ nl ++ "two")%string in
  find_chapters text = [Chapter "Part 1" 0 1; Chapter "Part 1" 2 3]
  /\ select_chapter (find_chapters text) "Part 1" = Some (Chapter "Part 1" 0 1).
Proof. vm_compute. split; reflexivity. Qed.

(** ** The shape of a heading *)

Lemma all_ascii_complete (x : ascii) : In x all_ascii.
Proof.
  unfold all_ascii. rewrite <- (ascii_nat_embedding x).
  apply in_map. apply in_seq.
  pose proof (nat_ascii_bounded x). lia.
Qed.

Lemma class_sub_spec (f g : ascii -> bool) :
  class_sub f g = true -> forall x, f x = true -> g x = true.
Proof.
  unfold class_sub. intros H x Hx.
  rewrite forallb_forall in H. specialize (H x (all_ascii_complete x)).
  rewrite Hx in H. exact H.
Qed.

Lemma space_not_word (x : ascii) :
  PyStr.isspace x = true -> PyStr.isword x = false.
Proof.
  intros H.
  assert (E : class_sub PyStr.isspace (fun x => negb (PyStr.isword x)) = true)
    by (vm_compute; reflexivity).
  apply (class_sub_spec _ _ E) in H. apply negb_true_iff in H. exact H.
Qed.

Lemma word_not_space (x : ascii) :
  PyStr.isword x = true -> PyStr.isspace x = false.
Proof.
  intros H. destruct (PyStr.isspace x) eqn:E; [|reflexivity].
  apply space_not_word in E. congruence.
Qed.

Lemma take_drop_while (f : ascii -> bool) (s : string) :
  s = (take_while f s ++ drop_while f s)%string
  /\ all_chars f (take_while f s) = true.
Proof.
  induction s as [|c s [IH1 IH2]]; simpl; [auto|].
  destruct (f c) eqn:E; simpl; [|auto].
  rewrite E, IH2. split; [congruence | reflexivity].
Qed.

Lemma drop_while_all (f : ascii -> bool) (w t : string) :
  all_chars f w = true -> drop_while f (w ++ t) = drop_while f t.
Proof.
  induction w as [|c w IH]; simpl; [auto|].
  intros H. apply andb_prop in H. destruct H as [Hc Hw].
  rewrite Hc. auto.
Qed.

Lemma drop_while_app (f : ascii -> bool) (s t : string) :
  drop_while f s <> EmptyString ->
  drop_while f (s ++ t) = (drop_while f s ++ t)%string.
Proof.
  induction s as [|c s IH]; simpl; [congruence|].
  destruct (f c); [exact IH | reflexivity].
Qed.

Lemma word_then_space_intro (w rest : string) (d : ascii) :
  w <> EmptyString -> all_chars PyStr.isword w = true ->
  PyStr.isspace d = true ->
  word_then_space (w ++ String d rest) = true.
Proof.
  intros Hne Hw Hd. destruct w as [|c w]; [congruence|].
  unfold word_then_space. cbn [append].
  change (String c (w ++ String d rest))
    with (String c w ++ String d rest)%string.
  rewrite (drop_while_all _ _ _ Hw). simpl in Hw.
  apply andb_prop in Hw. destruct Hw as [Hc _]. rewrite Hc.
  cbn [drop_while]. rewrite (space_not_word d Hd). exact Hd.
Qed.

Lemma word_then_space_elim (s : string) :
  word_then_space s = true ->
  exists w d rest, s = (w ++ String d rest)%string
                   /\ w <> EmptyString
                   /\ all_chars PyStr.isword w = true
                   /\ PyStr.isspace d = true.
Proof.
  unfold word_then_space. destruct s as [|c s]; [discriminate|].
  intros H. apply andb_prop in H. destruct H as [Hc H].
  destruct (take_drop_while PyStr.isword (String c s)) as [E Hall].
  destruct (drop_while PyStr.isword (String c s)) as [|d rest];
    [discriminate|].
  exists (take_while PyStr.isword (String c s)), d, rest.
  repeat split; auto.
  simpl. rewrite Hc. discriminate.
Qed.

Lemma word_then_space_app (s t : string) :
  word_then_space s = true -> word_then_space (s ++ t) = true.
Proof.
  intros H.
  destruct (word_then_space_elim s H) as [w [d [rest [-> [Hne [Hw Hd]]]]]].
  rewrite string_app_assoc. cbn [append].
  apply word_then_space_intro; auto.
Qed.

Lemma after_number_intro (dg sp t : string) :
  dg <> EmptyString -> all_chars PyStr.isdecimal dg = true ->
  sp <> EmptyString -> all_chars PyStr.isspace sp = true ->
  drop_while PyStr.isspace t = t ->
  after_number (dg ++ String "." (sp ++ t)) = Some t.
Proof.
  intros Hd1 Hd2 Hs1 Hs2 Ht.
  destruct dg as [|c dg]; [congruence|]. destruct sp as [|e sp]; [congruence|].
  unfold after_number. cbn [append].
  change (String c (dg ++ String "." (String e (sp ++ t))))
    with (String c dg ++ String "." (String e (sp ++ t)))%string.
  rewrite (drop_while_all _ _ _ Hd2).
  simpl in Hd2. apply andb_prop in Hd2. destruct Hd2 as [Hc _]. rewrite Hc.
  cbn [drop_while]. change (PyStr.isdecimal ".") with false. cbv iota.
  rewrite Ascii.eqb_refl.
  change (String e (sp ++ t)) with (String e sp ++ t)%string.
  rewrite (drop_while_all _ _ _ Hs2).
  simpl in Hs2. apply andb_prop in Hs2. destruct Hs2 as [He _].
  cbn [append]. rewrite He, Ht. reflexivity.
Qed.

Lemma after_number_elim (s r : string) :
  after_number s = Some r ->
  exists dg sp, s = (dg ++ String "." (sp ++ r))%string
                /\ dg <> EmptyString /\ all_chars PyStr.isdecimal dg = true
                /\ sp <> EmptyString /\ all_chars PyStr.isspace sp = true.
Proof.
  unfold after_number. destruct s as [|c s]; [discriminate|].
  destruct (PyStr.isdecimal c) eqn:Hc; [|discriminate].
  destruct (take_drop_while PyStr.isdecimal (String c s)) as [E Hall].
  destruct (drop_while PyStr.isdecimal (String c s)) as [|dot r0];
    [discriminate|].
  destruct (Ascii.eqb dot ".") eqn:Hdot; [|discriminate].
  apply Ascii.eqb_eq in Hdot. subst dot.
  destruct r0 as [|d r1]; [discriminate|].
  destruct (PyStr.isspace d) eqn:Hd; [|discriminate].
  intros H. injection H as <-.
  destruct (take_drop_while PyStr.isspace (String d r1)) as [E2 Hall2].
  exists (take_while PyStr.isdecimal (String c s)),
         (take_while PyStr.isspace (String d r1)).
  change (if PyStr.isspace d then drop_while PyStr.isspace r1
          else String d r1)
    with (drop_while PyStr.isspace (String d r1)).
  rewrite <- E2. repeat split; auto.
  - simpl. rewrite Hc. discriminate.
  - simpl. rewrite Hd. discriminate.
Qed.

Lemma heading_shape_app (s t : string) :
  heading_shape s = true -> heading_shape (s ++ t) = true.
Proof.
  unfold heading_shape. intros H. apply orb_prop in H.
  destruct H as [H|H].
  - rewrite (word_then_space_app _ _ H). reflexivity.
  - destruct (after_number s) as [r|] eqn:E; [|discriminate].
    destruct (after_number_elim s r E) as [dg [sp [-> [H1 [H2 [H3 H4]]]]]].
    destruct (word_then_space_elim r H) as [w [d [rest [-> [Hw1 [Hw2 Hd]]]]]].
    apply orb_true_iff. right.
    rewrite string_app_assoc. cbn [append]. rewrite !string_app_assoc.
    cbn [append].
    rewrite (after_number_intro dg sp (w ++ String d (rest ++ t)) H1 H2 H3 H4).
    + apply word_then_space_intro; auto.
    + destruct w as [|c w]; [congruence|]. cbn [append drop_while].
      simpl in Hw2. apply andb_prop in Hw2. destruct Hw2 as [Hc _].
      rewrite (word_not_space c Hc). reflexivity.
Qed.

Lemma lang_class (ic : bool) (r : regex) (s : string) :
  is_class r = true -> lang ic r s ->
  exists x, s = String x EmptyString /\ class_match ic r x = true.
Proof.
  intros Hc H. inversion H; subst; simpl in Hc; try discriminate; eauto.
Qed.

Lemma lang_Plus (ic : bool) (r : regex) (s : string) :
  lang ic (Plus r) s ->
  exists s1 s2, s = (s1 ++ s2)%string /\ lang ic r s1 /\ lang ic (Star r) s2.
Proof. intros H. inversion H; subst; [discriminate | eauto]. Qed.

Lemma lang_Opt (ic : bool) (r : regex) (s : string) :
  lang ic (Opt r) s -> s = EmptyString \/ lang ic r s.
Proof. intros H. inversion H; subst; [discriminate | auto | auto]. Qed.

Lemma lang_star_chars (ic : bool) (r : regex) (f : ascii -> bool)
    (s : string) :
  is_class r = true ->
  (forall x, class_match ic r x = true -> f x = true) ->
  lang ic (Star r) s -> all_chars f s = true.
Proof.
  intros Hc Hf H. remember (Star r) as R eqn:ER.
  induction H; try discriminate.
  - subst. discriminate.
  - reflexivity.
  - injection ER as ->.
    destruct (lang_class _ _ _ Hc H) as [x [-> Hx]].
    simpl. rewrite (Hf x Hx). apply IHlang2. reflexivity.
Qed.

Lemma lang_plus_chars (ic : bool) (r : regex) (f : ascii -> bool)
    (s : string) :
  is_class r = true ->
  (forall x, class_match ic r x = true -> f x = true) ->
  lang ic (Plus r) s -> s <> EmptyString /\ all_chars f s = true.
Proof.
  intros Hc Hf H. apply lang_Plus in H.
  destruct H as [s1 [s2 [-> [H1 H2]]]].
  destruct (lang_class _ _ _ Hc H1) as [x [-> Hx]].
  split; [discriminate|]. simpl. rewrite (Hf x Hx).
  eapply lang_star_chars; eauto.
Qed.

Lemma lang_star_intro (ic : bool) (r : regex) (f : ascii -> bool)
    (s : string) :
  (forall x, f x = true -> class_match ic r x = true) ->
  all_chars f s = true -> lang ic (Star r) s.
Proof.
  intros Hf. induction s as [|c s IH]; intros H; [constructor|].
  simpl in H. apply andb_prop in H. destruct H as [Hc Hs].
  change (String c s) with (String c EmptyString ++ s)%string.
  apply lang_star_app; [constructor; auto | auto].
Qed.

Lemma lang_plus_intro (ic : bool) (r : regex) (f : ascii -> bool)
    (s : string) :
  (forall x, f x = true -> class_match ic r x = true) ->
  s <> EmptyString -> all_chars f s = true -> lang ic (Plus r) s.
Proof.
  intros Hf Hne H. destruct s as [|c s]; [congruence|].
  simpl in H. apply andb_prop in H. destruct H as [Hc Hs].
  change (String c s) with (String c EmptyString ++ s)%string.
  apply lang_plus; [constructor; auto | eapply lang_star_intro; eauto].
Qed.

Lemma all_chars_app (f : ascii -> bool) (s t : string) :
  all_chars f (s ++ t) = all_chars f s && all_chars f t.
Proof.
  induction s as [|c s IH]; simpl; [reflexivity|].
  rewrite IH. apply andb_assoc.
Qed.

(** A literal word whose letters, compared as the pattern compares them,
    stand for characters of class [f] only. *)
Lemma lang_word_chars (ic : bool) (f : ascii -> bool) (W s : string) :
  W <> EmptyString ->
  all_chars (fun c => class_sub (char_match ic c) f) W = true ->
  lang ic (word W) s -> s <> EmptyString /\ all_chars f s = true.
Proof.
  revert s; induction W as [|c W IH]; intros s Hne Hall H; [congruence|].
  simpl in Hall. apply andb_prop in Hall. destruct Hall as [Hc HW].
  destruct W as [|c' W].
  - simpl in H. destruct (lang_class ic (Lit c) s eq_refl H) as [x [-> Hx]].
    split; [discriminate|]. simpl.
    rewrite (class_sub_spec _ _ Hc x Hx). reflexivity.
  - change (word (String c (String c' W)))
      with (Seq (Lit c) (word (String c' W))) in H.
    apply lang_Seq in H. destruct H as [s1 [s2 [-> [H1 H2]]]].
    destruct (lang_class ic (Lit c) s1 eq_refl H1) as [x [-> Hx]].
    destruct (IH s2 ltac:(discriminate) HW H2) as [_ H3].
    split; [discriminate|]. simpl.
    rewrite (class_sub_spec _ _ Hc x Hx). exact H3.
Qed.

(** Words, then white space, then anything: such a string begins with
    word characters followed by a white-space character. *)
Lemma seq_word_space (ic : bool) (R X : regex) (s : string) :
  (forall s1, lang ic R s1 ->
              s1 <> EmptyString /\ all_chars PyStr.isword s1 = true) ->
  lang ic (Seq R (Seq (Plus Space) X)) s -> word_then_space s = true.
Proof.
  intros HR H. apply lang_Seq in H. destruct H as [w [t [-> [Hw Ht]]]].
  apply lang_Seq in Ht. destruct Ht as [sp [x [-> [Hsp _]]]].
  destruct (HR w Hw) as [Hne Hall].
  destruct (lang_plus_chars ic Space PyStr.isspace sp eq_refl
              (fun x H => H) Hsp) as [Hsp1 Hsp2].
  destruct sp as [|d sp]; [congruence|].
  simpl in Hsp2. apply andb_prop in Hsp2. destruct Hsp2 as [Hd _].
  cbn [append]. apply word_then_space_intro; auto.
Qed.

Lemma chapter_rule_shape (s : string) :
  lang true chapter_rule s -> heading_shape s = true.
Proof.
  unfold chapter_rule. cbv [alts seqs]. intros H.
  assert (HW : forall W s1,
             W <> EmptyString ->
             all_chars (fun c => class_sub (char_match true c) PyStr.isword)
                       W = true ->
             lang true (word W) s1 ->
             s1 <> EmptyString /\ all_chars PyStr.isword s1 = true).
  { intros W s1 H1 H2 H3. eapply lang_word_chars; eauto. }
  assert (left_case : word_then_space s = true -> heading_shape s = true).
  { intros E. unfold heading_shape. rewrite E. reflexivity. }
  apply lang_Alt in H. destruct H as [H|H].
  { apply left_case. eapply seq_word_space; [|exact H].
    intros s1. apply HW; [discriminate | vm_compute; reflexivity]. }
  apply lang_Alt in H. destruct H as [H|H].
  { apply left_case. eapply seq_word_space; [|exact H].
    intros s1. apply HW; [discriminate | vm_compute; reflexivity]. }
  apply lang_Alt in H. destruct H as [H|H].
  { apply left_case. eapply seq_word_space; [|exact H].
    intros s1. apply HW; [discriminate | vm_compute; reflexivity]. }
  apply lang_Alt in H. destruct H as [H|H].
  { apply left_case. eapply seq_word_space; [|exact H].
    intros s1. apply HW; [discriminate | vm_compute; reflexivity]. }
  apply lang_Seq in H. destruct H as [o [t [-> [Ho Ht]]]].
  assert (Hshape : word_then_space t = true).
  { eapply seq_word_space; [|exact Ht].
    intros s1. apply lang_plus_chars; [reflexivity | auto]. }
  apply lang_Opt in Ho. destruct Ho as [->|Ho]; [apply left_case; exact Hshape|].
  apply lang_Seq in Ho. destruct Ho as [dg [u [-> [Hdg Hu]]]].
  apply lang_Seq in Hu. destruct Hu as [dot [sp [-> [Hdot Hsp]]]].
  destruct (lang_plus_chars true Digit PyStr.isdecimal dg eq_refl
              (fun x H => H) Hdg) as [Hdg1 Hdg2].
  destruct (lang_plus_chars true Space PyStr.isspace sp eq_refl
              (fun x H => H) Hsp) as [Hsp1 Hsp2].
  destruct (lang_class true (Lit ".") dot eq_refl Hdot) as [x [-> Hx]].
  assert (Edot : class_sub (char_match true ".")
                           (fun x => Ascii.eqb x ".") = true)
    by (vm_compute; reflexivity).
  apply (class_sub_spec _ _ Edot) in Hx. apply Ascii.eqb_eq in Hx. subst x.
  unfold heading_shape. apply orb_true_iff. right.
  rewrite !string_app_assoc. cbn [append].
  rewrite (after_number_intro dg sp t Hdg1 Hdg2 Hsp1 Hsp2); [exact Hshape|].
  destruct (word_then_space_elim t Hshape) as [w [d [rest [-> [Hw1 [Hw2 _]]]]]].
  destruct w as [|c w]; [congruence|]. cbn [append drop_while].
  simpl in Hw2. apply andb_prop in Hw2. destruct Hw2 as [Hc _].
  rewrite (word_not_space c Hc). reflexivity.
Qed.

Lemma part_rule_shape (s : string) :
  lang true part_rule s -> heading_shape s = true.
Proof.
  unfold part_rule. cbv [alts seqs]. intros H.
  assert (Hcase : forall W X,
             W <> EmptyString ->
             all_chars (fun c => class_sub (char_match true c) PyStr.isword)
                       W = true ->
             lang true (Seq (word W) (Seq (Plus Space) X)) s ->
             heading_shape s = true).
  { intros W X H1 H2 H3. unfold heading_shape.
    rewrite (seq_word_space true (word W) X s); [reflexivity | | exact H3].
    intros s1. apply lang_word_chars; auto. }
  apply lang_Alt in H. destruct H as [H|H].
  { eapply Hcase; [| |exact H]; [discriminate | vm_compute; reflexivity]. }
  apply lang_Alt in H. destruct H as [H|H].
  { eapply Hcase; [| |exact H]; [discriminate | vm_compute; reflexivity]. }
  apply lang_Alt in H. destruct H as [H|H].
  { eapply Hcase; [| |exact H]; [discriminate | vm_compute; reflexivity]. }
  eapply Hcase; [| |exact H]; [discriminate | vm_compute; reflexivity].
Qed.

Lemma one_line_all_chars (s : string) :
  PyStr.one_line s
  = all_chars (fun c => negb (Ascii.eqb c PyStr.newline)) s.
Proof. induction s as [|c s IH]; simpl; congruence. Qed.

Lemma word_then_space_lang (s : string) :
  PyStr.one_line s = true -> word_then_space s = true ->
  lang true (seqs [Plus Word; Plus Space; Star Dot]) s.
Proof.
  intros Hl H.
  destruct (word_then_space_elim s H) as [w [d [rest [-> [Hw1 [Hw2 Hd]]]]]].
  cbv [seqs].
  apply lang_seq; [eapply lang_plus_intro; eauto|].
  change (String d rest) with (String d EmptyString ++ rest)%string.
  apply lang_seq.
  - eapply (lang_plus_intro true Space PyStr.isspace); auto; [discriminate|].
    simpl. rewrite Hd. reflexivity.
  - apply one_line_suffix in Hl. simpl in Hl.
    apply andb_prop in Hl. destruct Hl as [_ Hl].
    rewrite one_line_all_chars in Hl.
    eapply lang_star_intro; [|exact Hl]. auto.
Qed.

Lemma shape_chapter_rule (s : string) :
  PyStr.one_line s = true -> heading_shape s = true ->
  lang true chapter_rule s.
Proof.
  intros Hl H. unfold chapter_rule.
  do 4 apply lang_alt_r.
  change (lang true
            (Seq (Opt (seqs [Plus Digit; Lit "."; Plus Space]))
                 (seqs [Plus Word; Plus Space; Star Dot])) s).
  unfold heading_shape in H. apply orb_prop in H. destruct H as [H|H].
  - change s with (EmptyString ++ s)%string.
    apply lang_seq; [apply lang_opt_nil|].
    apply word_then_space_lang; auto.
  - destruct (after_number s) as [r|] eqn:E; [|discriminate].
    destruct (after_number_elim s r E) as [dg [sp [-> [H1 [H2 [H3 H4]]]]]].
    assert (Hr : PyStr.one_line r = true).
    { apply one_line_suffix in Hl.
      change (String "." (sp ++ r)) with (String "." sp ++ r)%string in Hl.
      apply one_line_suffix in Hl. exact Hl. }
    replace (dg ++ String "." (sp ++ r))%string
      with ((dg ++ String "." sp) ++ r)%string
      by (rewrite string_app_assoc; reflexivity).
    apply lang_seq; [|apply word_then_space_lang; auto].
    apply lang_opt. cbv [seqs].
    apply lang_seq; [eapply lang_plus_intro; eauto|].
    change (String "." sp) with (String "." EmptyString ++ sp)%string.
    apply lang_seq; [constructor; reflexivity|].
    eapply lang_plus_intro; eauto.
Qed.

(** On a string without line feed, the first pattern matches exactly the
    strings of the shape of a heading, and the second matches only such
    strings. *)
Lemma chapter_pattern_shape (s : string) :
  PyStr.one_line s = true ->
  (match_ (Pattern (Seq chapter_rule (Star Space)) true true) s = true
   <-> heading_shape s = true).
Proof.
  intros Hl. rewrite (match_lang _ s Hl). simpl. split.
  - intros H. apply lang_Seq in H. destruct H as [s1 [s2 [-> [H1 _]]]].
    apply heading_shape_app. apply chapter_rule_shape. exact H1.
  - intros H. rewrite <- (append_empty_r s).
    apply lang_seq; [|apply lang_star_nil].
    apply shape_chapter_rule; auto.
Qed.

Lemma part_pattern_shape (s : string) :
  PyStr.one_line s = true ->
  match_ (Pattern (Seq part_rule (Star Space)) true true) s = true ->
  heading_shape s = true.
Proof.
  intros Hl. rewrite (match_lang _ s Hl). simpl.
  intros H. apply lang_Seq in H. destruct H as [s1 [s2 [-> [H1 _]]]].
  apply heading_shape_app. apply part_rule_shape. exact H1.
Qed.

(** X5. A line of a text is taken for a heading exactly when, stripped, it
    begins with one or more word characters followed by white space, after
    an optional number, full stop and white space: an ordinary line of two
    words is a heading, a line of one word is not. *)
Theorem is_heading_shape (text line : string) :
  In line (PyStr.split_lines text) ->
  is_heading line = heading_shape (PyStr.strip line).
Proof.
  intros Hin.
  assert (Hl : PyStr.one_line (PyStr.strip line) = true)
    by (eapply strip_one_line, split_lines_one_line; eauto).
  pose proof (chapter_pattern_shape _ Hl) as HA.
  pose proof (part_pattern_shape _ Hl) as HB.
  unfold is_heading, chapter_patterns. cbn [existsb].
  rewrite orb_false_r.
  destruct (heading_shape (PyStr.strip line)) eqn:E.
  - rewrite (proj2 HA eq_refl). reflexivity.
  - destruct (match_ _ (PyStr.strip line)) eqn:EA;
      [discriminate (proj1 HA eq_refl)|].
    destruct (match_ (Pattern (Seq part_rule (Star Space)) true true)
                     (PyStr.strip line)) eqn:EB; [|reflexivity].
    discriminate (HB eq_refl).
Qed.

(** X6. The second pattern, for "Part ...", never decides: on every line of
    a text the first pattern alone gives the answer of [is_heading]. *)
Theorem part_pattern_redundant (text line : string) :
  In line (PyStr.split_lines text) ->
  is_heading line
  = match_ (Pattern (Seq chapter_rule (Star Space)) true true)
           (PyStr.strip line).
Proof.
  intros Hin.
  assert (Hl : PyStr.one_line (PyStr.strip line) = true)
    by (eapply strip_one_line, split_lines_one_line; eauto).
  pose proof (chapter_pattern_shape _ Hl) as HA.
  pose proof (part_pattern_shape _ Hl) as HB.
  unfold is_heading, chapter_patterns. cbn [existsb].
  rewrite orb_false_r.
  destruct (match_ (Pattern (Seq chapter_rule (Star Space)) true true)
                   (PyStr.strip line)) eqn:EA; [reflexivity|].
  destruct (match_ (Pattern (Seq part_rule (Star Space)) true true)
                   (PyStr.strip line)) eqn:EB; [|reflexivity].
  discriminate (proj2 HA (HB eq_refl)).
Qed.

(** ** The slider of the summary length *)

Lemma slider_percentage_int (k : Z) :
  0 <= k <= 100 ->
  int_of_float (float_mul (slider_ratio k) float_100)
  = Return (if slips k then k - 1 else k).
Proof.
  intros Hk.
  assert (Hall : forallb
            (fun k => match int_of_float
                              (float_mul (slider_ratio k) float_100) with
                      | Return z => z =? (if slips k then k - 1 else k)
                      | Raise _ => false
                      end)
            (map Z.of_nat (seq 0 101)) = true)
    by (vm_compute; reflexivity).
  rewrite forallb_forall in Hall.
  assert (Hin : In k (map Z.of_nat (seq 0 101))).
  { rewrite <- (Z2Nat.id k) by lia. apply in_map. apply in_seq. lia. }
  specialize (Hall k Hin).
  destruct (int_of_float (float_mul (slider_ratio k) float_100)) as [z|e];
    [|discriminate].
  apply Z.eqb_eq in Hall. congruence.
Qed.

(** X7. For a slider value [k] from 0 to 100 the page hands [k / 100] to
    [summarize_book], and the percentage written in the prompt is [k] again
    but for 29, 57 and 58, which come out as 28, 56 and 57: the product
    [(k / 100) * 100] falls just below [k] there and [int] cuts it off. *)
Theorem slider_percentage (k : Z) :
  0 <= k <= 100 ->
  summary_head (slider_ratio k)
  = Return ("Please summarize the following book text in a concise manner, aiming for about "
            ++ str_of_int (if slips k then k - 1 else k)
            ++ "% of the original length. Focus on the main plot, key characters, and significant events:"
            ++ nl ++ nl)%string.
Proof.
  intros Hk. unfold summary_head.
  rewrite (slider_percentage_int k Hk). reflexivity.
Qed.

Lemma slider_percentage_witness :
  0 <= 29 <= 100
  /\ summary_head (slider_ratio 29)
     = Return ("Please summarize the following book text in a concise manner, aiming for about 28% of the original length. Focus on the main plot, key characters, and significant events:"
               ++ nl ++ nl)%string.
Proof.
  assert (H : 0 <= 29 <= 100) by lia.
  split; [exact H | exact (slider_percentage 29 H)].
Defined.

(** ** The request and its handler *)

Ltac split_outcome :=
  match goal with
  | |- context [match json_dumps ?a ?b with _ => _ end] =>
      destruct (json_dumps a b)
  | |- context [match fetch ?a ?b ?c with _ => _ end] =>
      destruct (fetch a b c)
  | |- context [match response_json ?a ?b with _ => _ end] =>
      destruct (response_json a b)
  | |- context [match has_reply ?a with _ => _ end] =>
      destruct (has_reply a) as [[|]|]
  | |- context [match reply_text ?a with _ => _ end] =>
      destruct (reply_text a)
  | |- context [match json_loads ?a ?b with _ => _ end] =>
      destruct (json_loads a b)
  | |- context [match format ?a ?b with _ => _ end] =>
      destruct (format a b)
  | |- context [match st_error_outcome ?a ?b with _ => _ end] =>
      destruct (st_error_outcome a b)
  | |- context [match print_outcome ?a ?b with _ => _ end] =>
      destruct (print_outcome a b)
  | |- context [if is_exception ?e then _ else _] =>
      destruct (is_exception e)
  | |- context [if truthy ?e then _ else _] => destruct (truthy e)
  end.

Ltac close_run :=
  cbn [fst snd];
  first [ exists (@nil event); split; [rewrite app_nil_r; reflexivity|]
        | eexists; split; [rewrite <- ?app_assoc; reflexivity|] ];
  simpl; repeat split; try lia;
  try (intros; congruence);
  try (intros ? ? H; exfalso; apply H; reflexivity).

(** X8. One run of the [try] of [call_gemini_api] with its handler makes at
    most one request and calls [st.error] at most twice (once in the
    [try], once in the handler); a value that it returns after a call of
    [st.error] is [None]. *)
Theorem request_block_quiet (rt : runtime) (apiUrl : string)
    (payload schema : value) (w : list event) :
  let run :=
    try_except (request rt apiUrl payload schema) (request_failed rt) w in
  exists ext,
    snd run = w ++ ext
    /\ (List.length (filter is_fetch ext) <= 1)%nat
    /\ (List.length (filter is_st_error ext) <= 2)%nat
    /\ (forall v, fst run = Return v -> filter is_st_error ext <> [] ->
                  v = VNone).
Proof.
  intros run. subst run.
  unfold try_except, request, request_failed, st_error, py_print,
    bind, lift, emit, ret.
  repeat (split_outcome; cbv beta iota); close_run.
Qed.

(** ** Chapters and heading lines *)

Lemma cut_starts (starts : list (Z * string)) (n : Z) (c : chapter) :
  In c (cut starts n) -> In (start_line c, title c) starts.
Proof.
  induction starts as [|[i t] rest IH]; [intros []|].
  cbn [cut]. intros [<-|H]; [left; reflexivity | right; auto].
Qed.

Lemma starts_cut (starts : list (Z * string)) (n i : Z) (t : string) :
  In (i, t) starts ->
  exists c, In c (cut starts n) /\ start_line c = i /\ title c = t.
Proof.
  induction starts as [|[j u] rest IH]; [intros []|].
  cbn [cut]. intros [E|H].
  - injection E as -> ->. eexists. split; [left; reflexivity|]. auto.
  - destruct (IH H) as [c [H1 H2]]. exists c. split; [right|]; auto.
Qed.

Lemma heading_lines_sound (lines : list string) (j i : Z) (t : string) :
  In (i, t) (heading_lines j lines) ->
  exists l, nth_error lines (Z.to_nat (i - j)) = Some l
            /\ j <= i /\ is_heading l = true /\ t = PyStr.strip l.
Proof.
  revert j; induction lines as [|l ls IH]; intros j; [intros []|].
  cbn [heading_lines]. intros H.
  assert (Hrest : In (i, t) (heading_lines (j + 1) ls) ->
                  exists l0, nth_error (l :: ls) (Z.to_nat (i - j)) = Some l0
                             /\ j <= i /\ is_heading l0 = true
                             /\ t = PyStr.strip l0).
  { intros H0. destruct (IH _ H0) as [l0 [H1 [H2 [H3 H4]]]].
    exists l0. repeat split; auto; [|lia].
    replace (Z.to_nat (i - j)) with (S (Z.to_nat (i - (j + 1)))) by lia.
    exact H1. }
  destruct (is_heading l) eqn:Hl; [|auto].
  destruct H as [E|H]; [|auto].
  injection E as <- <-. exists l.
  rewrite Z.sub_diag. repeat split; auto. lia.
Qed.

Lemma heading_lines_complete (lines : list string) (j : Z) (k : nat)
    (l : string) :
  nth_error lines k = Some l -> is_heading l = true ->
  In (j + Z.of_nat k, PyStr.strip l) (heading_lines j lines).
Proof.
  revert j k; induction lines as [|l0 ls IH]; intros j k Hk Hl.
  - destruct k; discriminate.
  - cbn [heading_lines]. destruct k as [|k].
    + injection Hk as ->. rewrite Hl. left. f_equal. simpl. lia.
    + simpl in Hk.
      assert (H : In (j + Z.of_nat (S k), PyStr.strip l)
                     (heading_lines (j + 1) ls)).
      { replace (j + Z.of_nat (S k)) with ((j + 1) + Z.of_nat k) by lia.
        apply IH; auto. }
      destruct (is_heading l0); [right|]; exact H.
Qed.

Lemma chapter_starts_cases (lines : list string) (i : Z) (t : string) :
  In (i, t) (chapter_starts lines) ->
  (i = 0 /\ t = sentinel_title) \/ In (i, t) (heading_lines 0 lines).
Proof.
  unfold chapter_starts. destruct lines as [|l ls].
  - intros [E|[]]. injection E as <- <-. auto.
  - destruct (is_heading l); [auto|].
    intros [E|H]; [|auto]. injection E as <- <-. auto.
Qed.

Lemma heading_lines_chapter_starts (lines : list string) (i : Z)
    (t : string) :
  In (i, t) (heading_lines 0 lines) -> In (i, t) (chapter_starts lines).
Proof.
  unfold chapter_starts. destruct lines as [|l ls]; [intros []|].
  destruct (is_heading l); [auto | right; auto].
Qed.

(** X10. Every chapter of the list is either the chapter titled
    "Introduction/Beginning" from line 0 or starts on a heading line whose
    stripped text is its title; its title is never empty. *)
Theorem chapter_starts_at_heading (text : string) (c : chapter) :
  In c (find_chapters text) ->
  title c <> EmptyString
  /\ ((title c = "Introduction/Beginning"%string /\ start_line c = 0)
      \/ exists l,
           nth_error (PyStr.split_lines text) (Z.to_nat (start_line c))
           = Some l
           /\ is_heading l = true /\ title c = PyStr.strip l).
Proof.
  intros Hc. rewrite find_chapters_cut in Hc.
  apply cut_starts in Hc. apply chapter_starts_cases in Hc.
  destruct Hc as [[H1 H2]|H].
  - split; [rewrite H2; discriminate | left; auto].
  - destruct (heading_lines_sound _ _ _ _ H) as [l [H1 [H2 [H3 H4]]]].
    rewrite Z.sub_0_r in H1. split; [|right; eauto].
    destruct (try_patterns_heading 0 l (Scan [] sentinel_title 0) H3)
      as [_ Ht].
    rewrite H4. destruct (PyStr.strip l); [discriminate | discriminate].
Qed.

(** X11. No heading is lost: every heading line of the text starts a
    chapter of the list, titled with the stripped line. *)
Theorem heading_opens_chapter (text : string) (k : nat) (l : string) :
  nth_error (PyStr.split_lines text) k = Some l ->
  is_heading l = true ->
  exists c, In c (find_chapters text)
            /\ start_line c = Z.of_nat k /\ title c = PyStr.strip l.
Proof.
  intros Hk Hl. rewrite find_chapters_cut.
  apply starts_cut. apply heading_lines_chapter_starts.
  exact (heading_lines_complete _ 0 k l Hk Hl).
Qed.

Lemma chapter_text_lines_length_witness :
  In (Chapter "Chapter 2" 2 3) (find_chapters text_two_chapters)
  /\ Z.of_nat (List.length
                 (chapter_text_lines (PyStr.split_lines text_two_chapters)
                                     (Chapter "Chapter 2" 2 3))) = 2.
Proof.
  assert (H : In (Chapter "Chapter 2" 2 3) (find_chapters text_two_chapters))
    by (vm_compute; right; left; reflexivity).
  split; [exact H|].
  exact (proj1 (chapter_text_lines_length text_two_chapters _ H)).
Defined.

Lemma select_chapter_by_title_witness :
  let text := ("Part 1" ++ nl ++ "one" ++ nl ++ "Part 1" ++ nl ++ "two")%string in
  In (Chapter "Part 1" 2 3) (find_chapters text)
  /\ exists c', select_chapter (find_chapters text) "Part 1" = Some c'
                /\ In c' (find_chapters text)
                /\ title c' = "Part 1"%string
                /\ start_line c' <= 2.
Proof.
  intros text.
  assert (H : In (Chapter "Part 1" 2 3) (find_chapters text))
    by (vm_compute; right; left; reflexivity).
  split; [exact H|].
  exact (select_chapter_by_title text (Chapter "Part 1" 2 3) H).
Defined.

Lemma is_heading_shape_witness :
  In "hello world"%string (PyStr.split_lines "hello world")
  /\ is_heading "hello world" = heading_shape (PyStr.strip "hello world").
Proof.
  assert (H : In "hello world"%string (PyStr.split_lines "hello world"))
    by (left; reflexivity).
  split; [exact H | exact (is_heading_shape "hello world" "hello world" H)].
Defined.

Lemma part_pattern_redundant_witness :
  In "Part One"%string (PyStr.split_lines "Part One")
  /\ is_heading "Part One"
     = match_ (Pattern (Seq chapter_rule (Star Space)) true true)
              (PyStr.strip "Part One").
Proof.
  assert (H : In "Part One"%string (PyStr.split_lines "Part One"))
    by (left; reflexivity).
  split; [exact H | exact (part_pattern_redundant "Part One" "Part One" H)].
Defined.

Lemma chapter_starts_at_heading_witness :
  In (Chapter "Chapter 2" 2 3) (find_chapters text_two_chapters)
  /\ nth_error (PyStr.split_lines text_two_chapters) 2
     = Some "Chapter 2"%string
  /\ title (Chapter "Chapter 2" 2 3) <> EmptyString.
Proof.
  assert (H : In (Chapter "Chapter 2" 2 3) (find_chapters text_two_chapters))
    by (vm_compute; right; left; reflexivity).
  split; [exact H|]. split; [reflexivity|].
  exact (proj1 (chapter_starts_at_heading text_two_chapters _ H)).
Defined.

Lemma heading_opens_chapter_witness :
  nth_error (PyStr.split_lines text_heading_pair) 0 = Some "Chapter 1"%string
  /\ is_heading "Chapter 1" = true
  /\ exists c, In c (find_chapters text_heading_pair)
               /\ start_line c = 0 /\ title c = "Chapter 1"%string.
Proof.
  assert (H1 : nth_error (PyStr.split_lines text_heading_pair) 0
               = Some "Chapter 1"%string) by reflexivity.
  assert (H2 : is_heading "Chapter 1" = true) by (vm_compute; reflexivity).
  split; [exact H1 | split; [exact H2|]].
  exact (heading_opens_chapter text_heading_pair 0 "Chapter 1" H1 H2).
Defined.

Example one_word_lines_are_no_headings :
  map is_heading ["Chapter"; "Prologue"; "1. Title"; "hello world";
                  "1. The Title"]%string
  = [false; false; false; true; true].
Proof. vm_compute. reflexivity. Qed.
